(** * Weather widget: a shallow embedding of [weather-widget.js]

    The development follows the layers of the script: the JavaScript values
    the code manipulates, [NetworkUtils] (input validation and the retrying
    fetcher), [WeatherService] (geocoding and forecast requests) and
    [WeatherDataProcessor] (the view-model builders). *)

From Stdlib Require Import ZArith NArith QArith Qround Lqa String Ascii Lia.
From Stdlib Require DecimalString.
From stdpp Require Import base option list strings gmap.

Local Open Scope Z_scope.

(** ** JavaScript values *)

(** A JavaScript number: the special values and the finite ones.  A finite
    double is a rational, and the code only compares, rounds and divides
    them, so the finite part is modelled by exact rationals (positive and
    negative zero are both [Fin 0]). *)
Inductive number : Type :=
  | NaN
  | PosInf
  | NegInf
  | Fin (q : Q).

(** A JavaScript string is a sequence of UTF-16 code units. *)
Definition jsstring : Type := list N.

(** A literal of the script. *)
Definition lit (s : string) : jsstring :=
  List.map N_of_ascii (list_ascii_of_string s).

(** The values that [JSON.parse] and the callers can hand to the code. *)
#[warnings="-register-all"]
Inductive jsval : Type :=
  | VUndef
  | VNull
  | VBool (b : bool)
  | VNum (n : number)
  | VStr (s : jsstring)
  | VArr (items : list jsval)
  | VObj (fields : list (jsstring * jsval)).

(** An [Error] object: its [name] and its [message]. *)
Record error : Type := Error_ { name : jsstring; message : jsstring }.

(** [new Error(msg)] *)
Definition new_Error (msg : jsstring) : error :=
  {| name := lit "Error"; message := msg |}.

Definition new_TypeError (msg : jsstring) : error :=
  {| name := lit "TypeError"; message := msg |}.

(** A computation either returns or throws. *)
Inductive result (A : Type) : Type :=
  | Ok (a : A)
  | Throw (e : error).
Arguments Ok {A} a.
Arguments Throw {A} e.

#[global] Instance number_inhabited : Inhabited number := populate NaN.
#[global] Instance jsval_inhabited : Inhabited jsval := populate VUndef.

(** *** Numbers *)

Definition Qeqb0 (q : Q) : bool := Z.eqb (Qnum q) 0.

(** [isNaN(x)] on a number. *)
Definition isNaN (x : number) : bool :=
  match x with NaN => true | _ => false end.

(** [!x] on a number: [NaN] and zero are falsy. *)
Definition not_number (x : number) : bool :=
  match x with
  | NaN => true
  | Fin q => Qeqb0 q
  | _ => false
  end.

(** [x < y]: false as soon as one side is [NaN]. *)
Definition num_lt (x y : number) : bool :=
  match x, y with
  | NaN, _ | _, NaN => false
  | _, NegInf => false
  | NegInf, _ => true
  | PosInf, _ => false
  | Fin _, PosInf => true
  | Fin a, Fin b => negb (Qle_bool b a)
  end.

(** [x > y] *)
Definition num_gt (x y : number) : bool := num_lt y x.

Definition of_Z (z : Z) : number := Fin (inject_Z z).

(** [Math.round]: the nearest integer, ties towards positive infinity. *)
Definition Math_round (x : number) : number :=
  match x with
  | Fin q => of_Z (Qfloor (q + (1 # 2))%Q)
  | other => other
  end.

(** *** Strings *)

(** White space and line terminators, as [String.prototype.trim] sees them. *)
Definition is_white_space (c : N) : bool :=
  existsb (N.eqb c)
    [9; 10; 11; 12; 13; 32; 160; 5760; 8232; 8233; 8239; 8287; 12288; 65279]%N
  || ((8192 <=? c) && (c <=? 8202))%N.

Fixpoint trimStart (s : jsstring) : jsstring :=
  match s with
  | c :: s' => if is_white_space c then trimStart s' else s
  | [] => []
  end.

Definition trimEnd (s : jsstring) : jsstring := rev (trimStart (rev s)).

(** [s.trim()] *)
Definition trim (s : jsstring) : jsstring := trimEnd (trimStart s).

Fixpoint starts_with (p s : jsstring) : bool :=
  match p, s with
  | [], _ => true
  | a :: p', b :: s' => (a =? b)%N && starts_with p' s'
  | _ :: _, [] => false
  end.

(** [s.includes(p)] *)
Fixpoint includes (s p : jsstring) : bool :=
  starts_with p s ||
  match s with
  | [] => false
  | _ :: s' => includes s' p
  end.

(** *** Truthiness and property access *)

(** [!!v] *)
Definition truthy (v : jsval) : bool :=
  match v with
  | VUndef | VNull => false
  | VBool b => b
  | VNum n => negb (not_number n)
  | VStr s => match s with [] => false | _ => true end
  | VArr _ | VObj _ => true
  end.

(** [a || b] *)
Definition js_or (a b : jsval) : jsval := if truthy a then a else b.

Fixpoint assoc (k : jsstring) (fields : list (jsstring * jsval)) : jsval :=
  match fields with
  | [] => VUndef
  | (k', v) :: rest => if decide (k = k') then v else assoc k rest
  end.

Definition length_number {A} (l : list A) : number := of_Z (Z.of_nat (length l)).

(** [v.key] for the keys the script reads.  Reading a property of
    [undefined] or [null] throws a [TypeError]; primitives have none of these
    properties apart from the [length] of a string. *)
Definition get_prop (v : jsval) (key : string) : result jsval :=
  match v with
  | VUndef | VNull =>
      Throw (new_TypeError (lit "Cannot read properties of " ++ lit key))
  | VObj fields => Ok (assoc (lit key) fields)
  | VArr items =>
      if String.eqb key "length" then Ok (VNum (length_number items)) else Ok VUndef
  | VStr s =>
      if String.eqb key "length" then Ok (VNum (length_number s)) else Ok VUndef
  | VBool _ | VNum _ => Ok VUndef
  end.

(** [v[0]] *)
Definition get_first (v : jsval) : result jsval :=
  match v with
  | VUndef | VNull => Throw (new_TypeError (lit "Cannot read properties of 0"))
  | VObj fields => Ok (assoc (lit "0") fields)
  | VArr items => Ok (match items with [] => VUndef | first :: _ => first end)
  | VStr s => Ok (match s with [] => VUndef | c :: _ => VStr [c] end)
  | VBool _ | VNum _ => Ok VUndef
  end.

(** [v === 0] *)
Definition strict_eq_zero (v : jsval) : bool :=
  match v with
  | VNum (Fin q) => Qeqb0 q
  | _ => false
  end.

(** ** The network and the clock

    The script's only effects are [fetch] calls and [setTimeout] waits.  A
    run threads the trace of the events performed so far; what the network
    answers to the k-th [fetch] is given by an oracle. *)

(** The three endpoints, with the parameters that vary. *)
Inductive request : Type :=
  | Geocoding (encoded_name : jsstring) (count : Z)
  | Forecast (latitude longitude : number)
  | Reverse (latitude longitude : number).

(** A [Response]: [ok], [status], [statusText], and what [json()] yields. *)
Record response : Type := Response {
  ok : bool;
  status : Z;
  statusText : jsstring;
  json : result jsval
}.

(** One [fetch]: the promise resolves to a response or rejects (a network
    fault is a [TypeError], the abort of the timeout an [AbortError]). *)
Inductive outcome : Type :=
  | Resolved (r : response)
  | Rejected (e : error).

Inductive event : Type :=
  | EvFetch (r : request)
  | EvWait (ms : Z).

Definition trace : Type := list event.

Definition is_fetch (e : event) : bool :=
  match e with EvFetch _ => true | EvWait _ => false end.

(** The number of network calls in a trace. *)
Definition fetch_count (t : trace) : nat := length (List.filter is_fetch t).

(** An asynchronous computation: from the trace so far to a result and the
    extended trace. *)
Definition M (A : Type) : Type := trace -> result A * trace.

Definition ret {A} (a : A) : M A := fun t => (Ok a, t).

Definition throw {A} (e : error) : M A := fun t => (Throw e, t).

Definition bind {A B} (m : M A) (k : A -> M B) : M B :=
  fun t =>
    match m t with
    | (Ok a, t') => k a t'
    | (Throw e, t') => (Throw e, t')
    end.

(** [try { body } catch (error) { handler }] *)
Definition try_catch {A} (body : M A) (handler : error -> M A) : M A :=
  fun t =>
    match body t with
    | (Ok a, t') => (Ok a, t')
    | (Throw e, t') => handler e t'
    end.

(** A synchronous step that may throw. *)
Definition lift {A} (r : result A) : M A := fun t => (r, t).

Declare Scope js_scope.
Delimit Scope js_scope with js.
Notation "'let*' x ':=' m 'in' k" := (bind m (fun x => k))
  (at level 10, x name, m at level 100, k at level 200) : js_scope.
Notation "'await' m 'in' k" := (bind m (fun _ => k))
  (at level 10, m at level 100, k at level 200) : js_scope.
Local Open Scope js_scope.

(** [await new Promise(resolve => setTimeout(resolve, delay))] *)
Definition wait (ms : Z) : M unit := fun t => (Ok tt, t ++ [EvWait ms]).

(** Decimal rendering of an integer inside a template literal. *)
Definition Z_to_jsstring (z : Z) : jsstring :=
  lit (DecimalString.NilZero.string_of_int (Z.to_int z)).

(** A lone surrogate makes [encodeURIComponent] throw a [URIError]. *)
Definition is_high_surrogate (c : N) : bool := ((55296 <=? c) && (c <=? 56319))%N.
Definition is_low_surrogate (c : N) : bool := ((56320 <=? c) && (c <=? 57343))%N.

Fixpoint well_formed (s : jsstring) : bool :=
  match s with
  | [] => true
  | c :: s' =>
      if is_high_surrogate c then
        match s' with
        | d :: s'' => is_low_surrogate d && well_formed s''
        | [] => false
        end
      else negb (is_low_surrogate c) && well_formed s'
  end.

(** [encodeURIComponent(s)]: the escaping is injective, so the request keeps
    the string itself. *)
Definition encodeURIComponent (s : jsstring) : result jsstring :=
  if well_formed s then Ok s
  else Throw {| name := lit "URIError"; message := lit "URI malformed" |}.

(** [encodeURIComponent] of a value converts it to a string first; the script
    only reaches it with strings. *)
Definition encodeURIComponent_val (v : jsval) : result jsstring :=
  match v with
  | VStr s => encodeURIComponent s
  | _ => Ok (lit "")
  end.

(** ** NetworkUtils *)

Module NetworkUtils.

Definition msg_required : jsstring := lit "City name is required".
Definition msg_empty : jsstring := lit "City name cannot be empty".
Definition msg_too_short : jsstring :=
  lit "City name must be at least 2 characters long".
Definition msg_too_long : jsstring :=
  lit "City name is too long (max 100 characters)".
Definition msg_invalid_chars : jsstring :=
  lit "City name contains invalid characters".

(** The character class of the regular expression: less-than, greater-than,
    double quote, single quote, ampersand. *)
Definition dangerousChars (c : N) : bool :=
  existsb (N.eqb c) [60; 62; 34; 39; 38]%N.

(** [dangerousChars.test(s)] *)
Definition dangerousChars_test (s : jsstring) : bool := existsb dangerousChars s.

Definition validateCityName (cityName : jsval) : result jsstring :=
  match cityName with
  | VStr ((_ :: _) as s) =>
      let trimmed := trim s in
      if (length trimmed =? 0)%nat then Throw (new_Error msg_empty)
      else if (length trimmed <? 2)%nat then Throw (new_Error msg_too_short)
      else if (100 <? length trimmed)%nat then Throw (new_Error msg_too_long)
      else if dangerousChars_test trimmed then Throw (new_Error msg_invalid_chars)
      else Ok trimmed
  | _ => Throw (new_Error msg_required)
  end.

Section Network.

(** The oracle: what the k-th [fetch] of the run, issued for this request,
    comes back with. *)
Variable net : nat -> request -> outcome.

(** [await fetch(url, ...)] with the abort timer armed. *)
Definition fetch (req : request) : M response :=
  fun t =>
    match net (fetch_count t) req with
    | Resolved r => (Ok r, t ++ [EvFetch req])
    | Rejected e => (Throw e, t ++ [EvFetch req])
    end.

Definition msg_timeout : jsstring :=
  lit "Request timeout - please check your internet connection and try again".
Definition msg_connection : jsstring :=
  lit "Network connection failed - please check your internet connection".

(** The body of the [try] block of one attempt. *)
Definition attempt_once (req : request) : M response :=
  let* response := fetch req in
  if ok response then ret response
  else throw (new_Error (lit "HTTP " ++ Z_to_jsstring (status response)
                          ++ lit ": " ++ statusText response)).

(** The [catch] block on the last attempt. *)
Definition final_error (e : error) : error :=
  if decide (name e = lit "AbortError") then new_Error msg_timeout
  else if decide (name e = lit "TypeError") then new_Error msg_connection
  else e.

(** [for (let attempt = ...; attempt <= maxRetries; attempt++)]; [fuel]
    bounds the iterations left.  Falling out of the loop returns
    [undefined] ([None]). *)
Fixpoint retry_loop (fuel : nat) (attempt maxRetries : Z) (req : request)
  : M (option response) :=
  match fuel with
  | O => ret None
  | S fuel' =>
      if attempt <=? maxRetries then
        try_catch
          (let* response := attempt_once req in ret (Some response))
          (fun e =>
             if attempt =? maxRetries then throw (final_error e)
             else
               let delay := 2 ^ (attempt - 1) * 1000 in
               await wait delay in
               retry_loop fuel' (attempt + 1) maxRetries req)
      else ret None
  end.

Definition fetchWithRetry (req : request) (maxRetries : Z) : M (option response) :=
  retry_loop (Z.to_nat maxRetries) 1 maxRetries req.

(** [await response.json()] *)
Definition response_json (r : option response) : M jsval :=
  match r with
  | Some r => lift (json r)
  | None => throw (new_TypeError (lit "Cannot read properties of undefined"))
  end.

End Network.

End NetworkUtils.

(** ** WeatherService *)

Module WeatherService.
Import NetworkUtils.

(** The object [getCoordinates] returns. *)
Record location_record : Type := LocationRecord {
  latitude : number;
  longitude : number;
  name : jsval;
  country : jsval;
  admin1 : jsval
}.

Definition quote : jsstring := [34%N].

Definition msg_no_results (validatedCity : jsstring) : jsstring :=
  lit "No results found for " ++ quote ++ validatedCity ++ quote
    ++ lit ". Please check the spelling or try a different city name.".
Definition msg_invalid_location : jsstring :=
  lit "Invalid location data received from server".
Definition msg_invalid_coordinates : jsstring :=
  lit "Invalid coordinates provided".
Definition msg_invalid_latitude : jsstring :=
  lit "Invalid latitude (must be between -90 and 90)".
Definition msg_invalid_longitude : jsstring :=
  lit "Invalid longitude (must be between -180 and 180)".
Definition msg_invalid_format : jsstring :=
  lit "Invalid weather data format received from server".

Section Service.

Variable net : nat -> request -> outcome.

(** The global [parseFloat]: it converts its argument to a string and
    reads the longest numeric prefix. *)
Variable parseFloat : jsval -> number.

Definition getCoordinates (cityName : jsval) : M location_record :=
  try_catch
    (let* validatedCity := lift (validateCityName cityName) in
     let* encoded := lift (encodeURIComponent validatedCity) in
     let* response := fetchWithRetry net (Geocoding encoded 1) 3 in
     let* data := response_json response in
     let* results := lift (get_prop data "results") in
     let* len := lift (if truthy results then get_prop results "length"
                       else Ok VUndef) in
     if negb (truthy results) || strict_eq_zero len then
       throw (new_Error (msg_no_results validatedCity))
     else
       let* location := lift (get_first results) in
       let* lat := lift (get_prop location "latitude") in
       let* lon := lift (get_prop location "longitude") in
       let* nm := lift (get_prop location "name") in
       (* Validate location data *)
       if negb (truthy lat) || negb (truthy lon) || negb (truthy nm) then
         throw (new_Error msg_invalid_location)
       else
         let* ctry := lift (get_prop location "country") in
         let* adm := lift (get_prop location "admin1") in
         ret {| latitude := parseFloat lat;
                longitude := parseFloat lon;
                name := nm;
                country := js_or ctry (VStr (lit "Unknown"));
                admin1 := js_or adm VNull |})
    (fun error =>
       if includes (message error) (lit "No results found")
          || includes (message error) (lit "Invalid location")
       then throw error (* Re-throw user-friendly errors as-is *)
       else throw (new_Error (lit "Unable to find location: " ++ message error))).

Definition getWeatherData (latitude longitude : number) : M jsval :=
  try_catch
    ((* Validate coordinates *)
     if not_number latitude || not_number longitude
        || isNaN latitude || isNaN longitude then
       throw (new_Error msg_invalid_coordinates)
     else if num_lt latitude (of_Z (-90)) || num_gt latitude (of_Z 90) then
       throw (new_Error msg_invalid_latitude)
     else if num_lt longitude (of_Z (-180)) || num_gt longitude (of_Z 180) then
       throw (new_Error msg_invalid_longitude)
     else
       let* response := fetchWithRetry net (Forecast latitude longitude) 3 in
       let* data := response_json response in
       (* Validate weather data structure *)
       let* current := lift (get_prop data "current") in
       let* daily := lift (get_prop data "daily") in
       let* hourly := lift (get_prop data "hourly") in
       if negb (truthy current) || negb (truthy daily) || negb (truthy hourly) then
         throw (new_Error msg_invalid_format)
       else ret data)
    (fun error =>
       if includes (message error) (lit "Invalid coordinates")
          || includes (message error) (lit "Invalid latitude")
          || includes (message error) (lit "Invalid longitude")
       then throw error (* Re-throw validation errors as-is *)
       else throw (new_Error (lit "Unable to fetch weather data: " ++ message error))).

(** [console.warn] in the handler leaves no trace on the network. *)
Definition searchCities (query : jsval) : M jsval :=
  try_catch
    (let* validated := lift (validateCityName query) in
     (* Validate search query *)
     if negb (truthy (VStr validated)) then
       ret (VArr []) (* Return empty array for invalid queries *)
     else
       let* encoded := lift (encodeURIComponent_val query) in
       let* response := fetchWithRetry net (Geocoding encoded 5) 3 in
       let* data := response_json response in
       let* results := lift (get_prop data "results") in
       ret (js_or results (VArr [])))
    (fun error => ret (VArr [])).

(** The request carries the coordinates as given and a [User-Agent]
    header; [console.warn] in the handler leaves no trace on the network. *)
Definition reverseGeocode (latitude longitude : number) : M location_record :=
  try_catch
    (let* response := fetchWithRetry net (Reverse latitude longitude) 3 in
     let* data := response_json response in
     (* data && data.address *)
     let* found := lift (if truthy data then get_prop data "address" else Ok data) in
     if truthy found then
       let address := found in
       let* city_ := lift (get_prop address "city") in
       let* town := lift (get_prop address "town") in
       let* village := lift (get_prop address "village") in
       let* municipality := lift (get_prop address "municipality") in
       let* hamlet := lift (get_prop address "hamlet") in
       (* Extract city name (try different fields) *)
       let city :=
         js_or (js_or (js_or (js_or (js_or city_ town) village) municipality) hamlet)
           (VStr (lit "Unknown City")) in
       let* state_ := lift (get_prop address "state") in
       let* region := lift (get_prop address "region") in
       let* province := lift (get_prop address "province") in
       let* county := lift (get_prop address "county") in
       (* Extract state/region (try different fields) *)
       let state :=
         js_or (js_or (js_or (js_or state_ region) province) county) (VStr (lit "")) in
       let* country_ := lift (get_prop address "country") in
       (* Extract country *)
       let country := js_or country_ (VStr (lit "Unknown Country")) in
       ret {| name := city;
              country := country;
              admin1 := state;
              latitude := latitude;
              longitude := longitude |}
     else
       (* Fallback if no results *)
       ret {| name := VStr (lit "Your Location");
              country := VStr (lit "Current Location");
              admin1 := VStr (lit "");
              latitude := latitude;
              longitude := longitude |})
    (fun error =>
       (* Return fallback location info *)
       ret {| name := VStr (lit "Your Location");
              country := VStr (lit "Current Location");
              admin1 := VStr (lit "");
              latitude := latitude;
              longitude := longitude |}).

End Service.

End WeatherService.

(** ** WeatherDataProcessor *)

(** [array[i]] for an integer index: out of range is [undefined] ([None]). *)
Definition index_Z {A} (l : list A) (i : Z) : option A :=
  if i <? 0 then None else l !! Z.to_nat i.

(** [array[n]] for a number: only a non-negative integer names an element. *)
Definition number_index (n : number) : option nat :=
  match n with
  | Fin q =>
      let z := Qfloor q in
      if Qeq_bool q (inject_Z z) && (0 <=? z) then Some (Z.to_nat z) else None
  | _ => None
  end.

Definition array_get {A} (l : list A) (n : number) : option A :=
  match number_index n with
  | Some i => l !! i
  | None => None
  end.

(** [ToNumber] of an array element that may be [undefined]. *)
Definition to_number (o : option number) : number := default NaN o.

(** [x / d] for a positive finite constant [d]. *)
Definition div_const (x : number) (d : Q) : number :=
  match x with
  | Fin q => Fin (q / d)
  | other => other
  end.

(** Rounding towards zero. *)
Definition Qtruncate (q : Q) : Z :=
  if Qle_bool 0 q then Qfloor q else Qceiling q.

(** [x % m] for a positive integer constant [m]: the remainder has the sign
    of the dividend. *)
Definition rem_const (x : number) (m : Z) : number :=
  match x with
  | Fin q =>
      let z := Qfloor q in
      if Qeq_bool q (inject_Z z) then of_Z (Z.rem z m)
      else Fin (q - inject_Z (m * Qtruncate (q / inject_Z m)))
  | _ => NaN
  end.

(** [for (let i = start; i < bound; i++) body]; [fuel] bounds the
    iterations left. *)
Fixpoint for_lt {S : Type} (fuel : nat) (i bound : Z) (body : Z -> S -> S) (s : S) : S :=
  match fuel with
  | O => s
  | S fuel' =>
      if i <? bound then for_lt fuel' (i + 1) bound body (body i s) else s
  end.

Module Hourly.
(** The [hourly] block of the payload: parallel arrays. *)
Record t : Type := Make {
  time : list jsstring;
  temperature_2m : list number;
  weather_code : list Z
}.
End Hourly.

Module Daily.
(** The [daily] block of the payload: parallel arrays; a precipitation sum
    may be [null]. *)
Record t : Type := Make {
  time : list jsstring;
  weather_code : list Z;
  temperature_2m_max : list number;
  temperature_2m_min : list number;
  apparent_temperature_max : list number;
  apparent_temperature_min : list number;
  precipitation_sum : list (option number);
  wind_speed_10m_max : list number
}.
End Daily.

Module HourlyEntry.
Record t : Type := Make {
  time : jsstring;
  hour : number;
  temperature : number;
  weatherCode : option Z;
  icon : string
}.
End HourlyEntry.

Module ForecastEntry.
Record t : Type := Make {
  date : option jsstring;
  dayName : option string;
  shortDay : option string;
  weatherCode : option Z;
  description : string;
  icon : string;
  maxTemp : number;
  minTemp : number;
  feelsLikeMax : number;
  feelsLikeMin : number;
  precipitation : number;
  maxWind : number
}.
End ForecastEntry.

Module Current.
(** The [current] block of the payload; a field may be missing. *)
Record t : Type := Make {
  temperature_2m : option number;
  relative_humidity_2m : option number;
  apparent_temperature : option number;
  weather_code : option Z;
  wind_speed_10m : option number;
  wind_direction_10m : option number;
  pressure_msl : option number;
  visibility : option number
}.
End Current.

Module Payload.
(** The payload [getWeatherData] returns, once its three blocks are read. *)
Record t : Type := Make {
  current : Current.t;
  daily : Daily.t;
  hourly : Hourly.t
}.
End Payload.

Module LocationView.
Record t : Type := Make {
  name : jsval;
  country : jsval;
  admin1 : jsval;
  fullName : jsstring
}.
End LocationView.

Module CurrentConditions.
(** [pressure] and [visibility] are [null] ([None]) when not reported. *)
Record t : Type := Make {
  temperature : number;
  feelsLike : number;
  humidity : option number;
  windSpeed : number;
  windDirection : option number;
  pressure : option number;
  visibility : option number;
  weatherCode : option Z;
  description : string;
  icon : string;
  time : jsstring
}.
End CurrentConditions.

Module Today.
Record t : Type := Make {
  maxTemp : number;
  minTemp : number;
  feelsLikeMax : number;
  feelsLikeMin : number;
  precipitation : number;
  maxWind : number
}.
End Today.

Module CurrentWeather.
Record t : Type := Make {
  location : LocationView.t;
  current : CurrentConditions.t;
  today : Today.t;
  hourly : list HourlyEntry.t
}.
End CurrentWeather.

Module WeatherDataProcessor.

(** [table[code] || fallback] *)
Definition or_string (o : option string) (fallback : string) : string :=
  match o with
  | Some s => if String.eqb s "" then fallback else s
  | None => fallback
  end.

Definition weatherCodes : gmap Z string :=
  list_to_map
    [ (0, "Clear sky"); (1, "Mainly clear"); (2, "Partly cloudy"); (3, "Overcast");
      (45, "Fog"); (48, "Depositing rime fog");
      (51, "Light drizzle"); (53, "Moderate drizzle"); (55, "Dense drizzle");
      (56, "Light freezing drizzle"); (57, "Dense freezing drizzle");
      (61, "Slight rain"); (63, "Moderate rain"); (65, "Heavy rain");
      (66, "Light freezing rain"); (67, "Heavy freezing rain");
      (71, "Slight snow fall"); (73, "Moderate snow fall"); (75, "Heavy snow fall");
      (77, "Snow grains");
      (80, "Slight rain showers"); (81, "Moderate rain showers");
      (82, "Violent rain showers");
      (85, "Slight snow showers"); (86, "Heavy snow showers");
      (95, "Thunderstorm"); (96, "Thunderstorm with slight hail");
      (99, "Thunderstorm with heavy hail") ]%string.

Definition iconMap : gmap Z string :=
  list_to_map
    [ (0, "☀️"); (1, "🌤️"); (2, "⛅"); (3, "☁️");
      (45, "🌫️"); (48, "🌫️");
      (51, "🌦️"); (53, "🌦️"); (55, "🌦️"); (56, "🌦️"); (57, "🌦️");
      (61, "🌧️"); (63, "🌧️"); (65, "🌧️"); (66, "🌧️"); (67, "🌧️");
      (71, "🌨️"); (73, "🌨️"); (75, "🌨️"); (77, "🌨️");
      (80, "🌦️"); (81, "🌦️"); (82, "🌦️");
      (85, "🌨️"); (86, "🌨️");
      (95, "⛈️"); (96, "⛈️"); (99, "⛈️") ]%string.

(** The argument is an element of a [weather_code] array: an integer, or
    [undefined] ([None]) past the end, which is no key of the table. *)
Definition getWeatherDescription (code : option Z) : string :=
  or_string (code ≫= (weatherCodes !!.)) "Unknown".

Definition getWeatherIcon (code : option Z) : string :=
  or_string (code ≫= (iconMap !!.)) "❓".

Definition days : list string :=
  [ "Sunday"; "Monday"; "Tuesday"; "Wednesday"; "Thursday"; "Friday"; "Saturday" ]%string.

Definition short_days : list string :=
  [ "Sun"; "Mon"; "Tue"; "Wed"; "Thu"; "Fri"; "Sat" ]%string.

Definition directions : list string :=
  [ "N"; "NNE"; "NE"; "ENE"; "E"; "ESE"; "SE"; "SSE";
    "S"; "SSW"; "SW"; "WSW"; "W"; "WNW"; "NW"; "NNW" ]%string.

Definition getWindDirection (degrees : number) : option string :=
  let index := rem_const (Math_round (div_const degrees (45 # 2))) 16 in
  array_get directions index.

Section Clock.

(** [new Date(x)] is kept as the value it was built from ([None] for
    [undefined]); what the host's calendar and locale make of it is
    given by three functions.  [getDay] and [getHours] answer [NaN] on
    an invalid date. *)
Variable toLocaleTimeString : option jsstring -> jsstring.
Variable getHours : option jsstring -> number.
Variable getDay : option jsstring -> number.

Definition getDayName (date : option jsstring) : option string :=
  array_get days (getDay date).

Definition getShortDayName (date : option jsstring) : option string :=
  array_get short_days (getDay date).

(** The object pushed for [hourIndex]. *)
Definition hourly_entry (hourly : Hourly.t) (hourIndex : Z) : HourlyEntry.t :=
  let time := index_Z (Hourly.time hourly) hourIndex in
  {| HourlyEntry.time := toLocaleTimeString time;
     HourlyEntry.hour := getHours time;
     HourlyEntry.temperature :=
       Math_round (to_number (index_Z (Hourly.temperature_2m hourly) hourIndex));
     HourlyEntry.weatherCode := index_Z (Hourly.weather_code hourly) hourIndex;
     HourlyEntry.icon :=
       getWeatherIcon (index_Z (Hourly.weather_code hourly) hourIndex) |}.

Definition processHourlyForecast (hourly : Hourly.t) (currentHour : Z)
  : list HourlyEntry.t :=
  (* Get next 12 hours starting from current hour *)
  for_lt 12 0 12
    (fun i hourlyForecast =>
       let hourIndex := currentHour + i in
       if hourIndex <? Z.of_nat (length (Hourly.time hourly)) then
         hourlyForecast ++ [hourly_entry hourly hourIndex]
       else hourlyForecast)
    [].

(** [x || 0] on a precipitation sum. *)
Definition or_zero (o : option number) : number :=
  match o with
  | Some n => if not_number n then of_Z 0 else n
  | None => of_Z 0
  end.



End Clock.

Section Now.

(** The host at the time of the call: the hour [new Date().getHours()]
    shows, the text [new Date().toLocaleTimeString(...)] gives, how a
    [Date] built from a time stamp is read, and how a template literal
    renders a value. *)
Variable now_hours : Z.
Variable now_time : jsstring.
Variable toLocaleTimeString : option jsstring -> jsstring.
Variable getHours : option jsstring -> number.
Variable ToString : jsval -> jsstring.

Definition processCurrentWeather (data : Payload.t) (locationInfo : WeatherService.location_record)
  : CurrentWeather.t :=
  let current := Payload.current data in
  let daily := Payload.daily data in
  let hourly := Payload.hourly data in
  (* Get current hour index for hourly data *)
  let currentHour := now_hours in
  let first (l : list number) := Math_round (to_number (index_Z l 0)) in
  {| CurrentWeather.location :=
       {| LocationView.name := WeatherService.name locationInfo;
          LocationView.country := WeatherService.country locationInfo;
          LocationView.admin1 := WeatherService.admin1 locationInfo;
          LocationView.fullName :=
            ToString (WeatherService.name locationInfo)
            ++ (if truthy (WeatherService.admin1 locationInfo)
                then lit ", " ++ ToString (WeatherService.admin1 locationInfo)
                else lit "")
            ++ lit ", " ++ ToString (WeatherService.country locationInfo) |};
     CurrentWeather.current :=
       {| CurrentConditions.temperature :=
            Math_round (to_number (Current.temperature_2m current));
          CurrentConditions.feelsLike :=
            Math_round (to_number (Current.apparent_temperature current));
          CurrentConditions.humidity := Current.relative_humidity_2m current;
          CurrentConditions.windSpeed :=
            Math_round (to_number (Current.wind_speed_10m current));
          CurrentConditions.windDirection := Current.wind_direction_10m current;
          CurrentConditions.pressure :=
            match Current.pressure_msl current with
            | Some p => if not_number p then None else Some (Math_round p)
            | None => None
            end;
          CurrentConditions.visibility :=
            match Current.visibility current with
            | Some v => if not_number v then None
                        else Some (Math_round (div_const v (inject_Z 1000)))
            | None => None
            end;
          CurrentConditions.weatherCode := Current.weather_code current;
          CurrentConditions.description :=
            getWeatherDescription (Current.weather_code current);
          CurrentConditions.icon := getWeatherIcon (Current.weather_code current);
          CurrentConditions.time := now_time |};
     CurrentWeather.today :=
       {| Today.maxTemp := first (Daily.temperature_2m_max daily);
          Today.minTemp := first (Daily.temperature_2m_min daily);
          Today.feelsLikeMax := first (Daily.apparent_temperature_max daily);
          Today.feelsLikeMin := first (Daily.apparent_temperature_min daily);
          Today.precipitation :=
            or_zero (mjoin (index_Z (Daily.precipitation_sum daily) 0));
          Today.maxWind := first (Daily.wind_speed_10m_max daily) |};
     CurrentWeather.hourly :=
       processHourlyForecast toLocaleTimeString getHours hourly currentHour |}.

End Now.

End WeatherDataProcessor.

(** ** WeatherWidget

    The controller.  Of the page it keeps what the container shows, and of
    the host the timers that [setTimeout] has armed; the builders and the
    templates that turn a payload into markup are a parameter. *)

Module WeatherWidget.
Import NetworkUtils WeatherService.

(** What an armed timer will run. *)
Inductive callback : Type :=
  | ReloadCurrentLocation  (* if (this.currentLocationInfo) this.loadWeather(...name) *)
  | InitLondon.            (* this.init('London') *)

(** [setTimeout(action, delay)] *)
Record timer : Type := Timer { delay : Z; action : callback }.

(** [this.container.innerHTML] *)
Inductive view : Type :=
  | Loading
  | Weather (html : jsstring)
  | ErrorBox (title message : jsstring).

Record widget : Type := Widget {
  currentLocationInfo : option location_record;
  showHourlyForecast : bool;
  container : view;
  timers : list timer
}.

(** A method of the controller: it reads and writes the widget, extends the
    trace of the network, and returns or throws. *)
Definition C (A : Type) : Type := widget -> trace -> result A * widget * trace.

Definition c_ret {A} (a : A) : C A := fun w t => (Ok a, w, t).

Definition c_throw {A} (e : error) : C A := fun w t => (Throw e, w, t).

Definition c_bind {A B} (m : C A) (k : A -> C B) : C B :=
  fun w t =>
    match m w t with
    | (Ok a, w', t') => k a w' t'
    | (Throw e, w', t') => (Throw e, w', t')
    end.

(** [try { body } catch (error) { handler }]: what the body has written to
    the widget before throwing stays written. *)
Definition c_try {A} (body : C A) (handler : error -> C A) : C A :=
  fun w t =>
    match body w t with
    | (Ok a, w', t') => (Ok a, w', t')
    | (Throw e, w', t') => handler e w' t'
    end.

(** [await] a call of the service. *)
Definition c_lift {A} (m : M A) : C A :=
  fun w t => let (r, t') := m t in (r, w, t').

Definition c_read : C widget := fun w t => (Ok w, w, t).

Definition c_update (f : widget -> widget) : C unit := fun w t => (Ok tt, f w, t).

Notation "'let!' x ':=' m 'in' k" := (c_bind m (fun x => k))
  (at level 10, x name, m at level 100, k at level 200) : js_scope.
Notation "'do!' m 'in' k" := (c_bind m (fun _ => k))
  (at level 10, m at level 100, k at level 200) : js_scope.

Definition set_container (v : view) (w : widget) : widget :=
  {| currentLocationInfo := currentLocationInfo w;
     showHourlyForecast := showHourlyForecast w;
     container := v;
     timers := timers w |}.

Definition set_currentLocationInfo (l : location_record) (w : widget) : widget :=
  {| currentLocationInfo := Some l;
     showHourlyForecast := showHourlyForecast w;
     container := container w;
     timers := timers w |}.


(** [setTimeout(action, delay)] *)
Definition setTimeout (a : callback) (ms : Z) (w : widget) : widget :=
  {| currentLocationInfo := currentLocationInfo w;
     showHourlyForecast := showHourlyForecast w;
     container := container w;
     timers := timers w ++ [Timer ms a] |}.

Definition showLoading : C unit := c_update (set_container Loading).

Definition showError (title message : jsstring) : C unit :=
  do! c_update (set_container (ErrorBox title message)) in
  (* Auto-retry after 5 seconds for network errors *)
  if includes message (lit "network") || includes message (lit "timeout")
     || includes message (lit "fetch")
  then c_update (setTimeout ReloadCurrentLocation 5000)
  else c_ret tt.

Definition msg_enter_valid : jsstring :=
  lit "Please enter a valid city name (letters, spaces, and basic punctuation only)".
Definition msg_invalid_weather : jsstring :=
  lit "Invalid weather data received. Please try again.".

Section Controller.

Variable net : nat -> request -> outcome.
Variable parseFloat : jsval -> number.

(** How a template literal renders a value. *)
Variable ToString : jsval -> jsstring.

(** [processCurrentWeather], [processForecast] and the templates of
    [render], on the raw payload, the location and the forecast mode: the
    markup, or the error thrown on a payload they cannot read. *)
Variable process_and_render : jsval -> location_record -> bool -> result jsstring.

(** The title the [catch] block of [loadWeather] picks. *)
Definition userMessage (message : jsstring) (cityName : jsval) : jsstring :=
  if includes message (lit "valid city name") then lit "Invalid city name"
  else if includes message (lit "Unable to find coordinates") then
    lit "City not found: " ++ quote ++ ToString cityName ++ quote
  else if includes message (lit "network") || includes message (lit "fetch") then
    lit "Network connection problem"
  else if includes message (lit "timeout") then
    lit "Request timed out - please try again"
  else lit "Failed to load weather data".

(** The check [!weatherData || !weatherData.current || !weatherData.daily],
    then the builders and [render]. *)
Definition show_weather (weatherData : jsval) (locationInfo : location_record) : C unit :=
  let! current := c_lift (lift (if truthy weatherData then get_prop weatherData "current"
                                else Ok VUndef)) in
  let! daily := c_lift (lift (if truthy weatherData && truthy current
                              then get_prop weatherData "daily" else Ok VUndef)) in
  (* Validate weather data structure *)
  if negb (truthy weatherData) || negb (truthy current) || negb (truthy daily) then
    c_throw (new_Error msg_invalid_weather)
  else
    (* Process and render the data *)
    let! w := c_read in
    let! html := c_lift (lift (process_and_render weatherData locationInfo
                                 (showHourlyForecast w))) in
    c_update (set_container (Weather html)).

Definition loadWeather (cityName : jsval) : C unit :=
  do! showLoading in
  c_try
    ((* Validate input using NetworkUtils *)
     let! validated := c_lift (lift (validateCityName cityName)) in
     if negb (truthy (VStr validated)) then c_throw (new_Error msg_enter_valid)
     else
       (* Get coordinates for the city; the record is an object, so
          [!locationInfo] is false *)
       let! locationInfo := c_lift (getCoordinates net parseFloat cityName) in
       do! c_update (set_currentLocationInfo locationInfo) in
       (* Get weather data *)
       let! weatherData := c_lift (getWeatherData net (latitude locationInfo)
                                     (longitude locationInfo)) in
       show_weather weatherData locationInfo)
    (fun error =>
       (* Provide user-friendly error messages *)
       showError (userMessage (message error) cityName) (message error)).

Definition init (defaultCity : jsval) : C unit :=
  do! c_update (set_container Loading) in
  c_try (loadWeather defaultCity)
    (fun error =>
       showError (lit "Failed to load initial weather data") (message error)).

Definition initWithCoordinates (latitude longitude : number) : C unit :=
  do! c_update (set_container Loading) in
  c_try
    ((* Get location name from coordinates using reverse geocoding *)
     let! locationInfo := c_lift (reverseGeocode net latitude longitude) in
     do! c_update (set_currentLocationInfo locationInfo) in
     (* Get weather data using coordinates *)
     let! weatherData := c_lift (getWeatherData net latitude longitude) in
     show_weather weatherData locationInfo)
    (fun error =>
       (* Fallback to default city if coordinate-based loading fails *)
       do! showError (lit "Failed to load location-based weather")
             (lit "Falling back to default location...") in
       c_update (setTimeout InitLondon 2000)).



(** The [click] listener of the search button, on the text of the input;
    the [keypress] listener does the same on Enter.  The load it starts is
    followed to its end; hiding the suggestions does not touch the
    container. *)
Definition searchBtn_click (value : jsstring) : C unit :=
  let cityName := trim value in
  if truthy (VStr cityName) then
    (* Validate input before proceeding *)
    c_try
      (let! validated := c_lift (lift (validateCityName (VStr cityName))) in
       if negb (truthy (VStr validated)) then
         showError (lit "Invalid Input") msg_enter_valid
       else loadWeather (VStr cityName))
      (fun error => showError (lit "Invalid Input") (message error))
  else showError (lit "Empty Input") (lit "Please enter a city name").

End Controller.

End WeatherWidget.

(** ** Vocabulary of the statements *)

(** The events of a run of the retry loop that starts at attempt [attempt]
    and is followed by [retries] further attempts: each failed attempt [i]
    is followed by a wait of [1000 * 2 ^ (i - 1)] ms, and the run ends on a
    fetch. *)
Fixpoint schedule (req : request) (attempt : Z) (retries : nat) : trace :=
  match retries with
  | O => [EvFetch req]
  | S r => EvFetch req :: EvWait (1000 * 2 ^ (attempt - 1)) :: schedule req (attempt + 1) r
  end.

(** Whether the k-th fetch of a run comes back with a response whose [ok]
    flag is set. *)
Definition succeeds (net : nat -> request -> outcome) (k : nat) (req : request) : bool :=
  match net k req with
  | Resolved r => ok r
  | Rejected _ => false
  end.

(** The sum of the waits of a trace, in milliseconds. *)
Definition total_wait (t : trace) : Z :=
  foldr (fun e acc => match e with EvWait ms => ms + acc | EvFetch _ => acc end) 0 t.

(** A computation that performs no network call and no wait. *)
Definition quiet {A} (m : M A) : Prop := forall t, snd (m t) = t.

(** A finite number within the bounds the forecast request accepts. *)
Definition valid_latitude (x : number) : bool :=
  match x with
  | Fin q => Qle_bool (inject_Z (-90)) q && Qle_bool q (inject_Z 90)
  | _ => false
  end.

Definition valid_longitude (x : number) : bool :=
  match x with
  | Fin q => Qle_bool (inject_Z (-180)) q && Qle_bool q (inject_Z 180)
  | _ => false
  end.

(** [n] is the integer nearest to [q], a tie going to the integer above. *)
Definition nearest (q : Q) (n : number) : Prop :=
  exists z : Z, n = of_Z z /\ (inject_Z z - (1 # 2) <= q)%Q /\ (q < inject_Z z + (1 # 2))%Q.

(** [response.json().results[0][field]]: a field of the top result of a
    geocoding response. *)
Definition top_result (resp : response) (field : string) : result jsval :=
  match json resp with
  | Ok data =>
      match get_prop data "results" with
      | Ok results =>
          match get_first results with
          | Ok location => get_prop location field
          | Throw e => Throw e
          end
      | Throw e => Throw e
      end
  | Throw e => Throw e
  end.

(** ** Sample runs *)

(** The geocoding response [{ results: [{ latitude, longitude, name }] }],
    served with status 200. *)
Definition geocoding_response (latitude longitude : number) (name : string) : response :=
  {| ok := true;
     status := 200;
     statusText := lit "OK";
     json := Ok (VObj [(lit "results",
                        VArr [VObj [(lit "latitude", VNum latitude);
                                    (lit "longitude", VNum longitude);
                                    (lit "name", VStr (lit name))]])]) |}.

(** A network that answers every request with the same response. *)
Definition always (resp : response) : nat -> request -> outcome :=
  fun _ _ => Resolved resp.

(** A network whose first two fetches fail at the connection and whose
    later ones answer with the response. *)
Definition flaky (resp : response) : nat -> request -> outcome :=
  fun k _ =>
    if (k <? 2)%nat then Rejected (new_TypeError (lit "Failed to fetch"))
    else Resolved resp.

(** A network on which every request fails at the connection. *)
Definition offline : nat -> request -> outcome :=
  fun _ _ => Rejected (new_TypeError (lit "Failed to fetch")).

(** [parseFloat] restricted to numbers, where it is the identity. *)
Definition parseFloat_number (v : jsval) : number :=
  match v with
  | VNum n => n
  | _ => NaN
  end.

(** A host whose clock shows the time stamp as it is, at hour 0 of a
    Saturday. *)
Definition sample_time (date : option jsstring) : jsstring := default [] date.
Definition sample_hours (date : option jsstring) : number := of_Z 0.
Definition saturday (date : option jsstring) : number := of_Z 6.

(** What one attempt of the retry loop ends with on the k-th fetch of the
    run: the response when its [ok] flag is set, else the error thrown
    inside the [try] block. *)
Definition attempt_result (net : nat -> request -> outcome) (k : nat) (req : request)
  : result response :=
  match net k req with
  | Resolved r =>
      if ok r then Ok r
      else Throw (new_Error (lit "HTTP " ++ Z_to_jsstring (status r)
                              ++ lit ": " ++ statusText r))
  | Rejected e => Throw e
  end.

(** Whether an event is a fetch of the given request or a wait. *)
Definition fetch_of (req : request) (e : event) : Prop :=
  match e with
  | EvFetch r => r = req
  | EvWait _ => True
  end.

(** The events of one call of a service method: at most three fetches, all
    of the same request, and waits of at most three seconds in all. *)
Definition within_budget (req : request) (evs : trace) : Prop :=
  (fetch_count evs <= 3)%nat /\ total_wait evs <= 3000 /\ Forall (fetch_of req) evs.

(** The first truthy value of a list, or the fallback. *)
Fixpoint first_truthy (candidates : list jsval) (fallback : jsval) : jsval :=
  match candidates with
  | [] => fallback
  | v :: rest => if truthy v then v else first_truthy rest fallback
  end.

(** A forecast response with the three blocks, served with status 200. *)
Definition forecast_response (current daily hourly : jsval) : response :=
  {| ok := true;
     status := 200;
     statusText := lit "OK";
     json := Ok (VObj [(lit "current", current);
                       (lit "daily", daily);
                       (lit "hourly", hourly)]) |}.

(** A reverse-geocoding response with the given address, served with status
    200. *)
Definition reverse_response (address : list (jsstring * jsval)) : response :=
  {| ok := true;
     status := 200;
     statusText := lit "OK";
     json := Ok (VObj [(lit "address", VObj address)]) |}.

(** A network on which every request times out. *)
Definition stalled : nat -> request -> outcome :=
  fun _ _ => Rejected {| name := lit "AbortError";
                         message := lit "The operation was aborted" |}.

(** Whether [showError] arms the timer of the automatic retry. *)
Definition auto_retry (message : jsstring) : bool :=
  includes message (lit "network") || includes message (lit "timeout")
  || includes message (lit "fetch").

(** The widget after [showError(title, message)]. *)
Definition after_showError (title message : jsstring) (w : WeatherWidget.widget)
  : WeatherWidget.widget :=
  let shown := WeatherWidget.set_container (WeatherWidget.ErrorBox title message) w in
  if auto_retry message
  then WeatherWidget.setTimeout WeatherWidget.ReloadCurrentLocation 5000 shown
  else shown.

(** A page that shows markup, with no location yet and no timer armed. *)
Definition fresh_widget : WeatherWidget.widget :=
  {| WeatherWidget.currentLocationInfo := None;
     WeatherWidget.showHourlyForecast := false;
     WeatherWidget.container := WeatherWidget.Weather [];
     WeatherWidget.timers := [] |}.

(** Builders and templates that render any payload to the same markup. *)
Definition sample_render (data : jsval) (location : WeatherService.location_record)
    (hourly : bool) : result jsstring :=
  Ok (lit "<div>weather</div>").

(** A template literal on strings only. *)
Definition sample_ToString (v : jsval) : jsstring :=
  match v with
  | VStr s => s
  | _ => []
  end.

(** The widget after the [catch] block of [loadWeather] has shown [e]. *)
Definition failed (ToString : jsval -> jsstring) (cityName : jsval) (e : error)
    (w : WeatherWidget.widget) : WeatherWidget.widget :=
  after_showError (WeatherWidget.userMessage ToString (message e) cityName) (message e) w.

(** A network on which geocoding answers and every other request fails at
    the connection. *)
Definition geocoding_only (resp : response) : nat -> request -> outcome :=
  fun _ req =>
    match req with
    | Geocoding _ _ => Resolved resp
    | _ => Rejected (new_TypeError (lit "Failed to fetch"))
    end.

(** The widget after the [catch] block of [initWithCoordinates]. *)
Definition fallen_back (w : WeatherWidget.widget) : WeatherWidget.widget :=
  WeatherWidget.setTimeout WeatherWidget.InitLondon 2000
    (WeatherWidget.set_container
       (WeatherWidget.ErrorBox (lit "Failed to load location-based weather")
          (lit "Falling back to default location..."))
       w).

(** A network on which geocoding and the forecast answer and reverse
    geocoding fails at the connection. *)
Definition online (geocoding forecast : response) : nat -> request -> outcome :=
  fun _ req =>
    match req with
    | Geocoding _ _ => Resolved geocoding
    | Forecast _ _ => Resolved forecast
    | Reverse _ _ => Rejected (new_TypeError (lit "Failed to fetch"))
    end.

(** Paris, as [getCoordinates] returns it from [geocoding_response]. *)
Definition paris : WeatherService.location_record :=
  {| WeatherService.latitude := Fin (4885 # 100);
     WeatherService.longitude := Fin (235 # 100);
     WeatherService.name := VStr (lit "Paris");
     WeatherService.country := VStr (lit "Unknown");
     WeatherService.admin1 := VNull |}.

(** * Properties *)

(** ** Input validation *)

Module ValidatorProperties.
Import NetworkUtils.

Lemma dangerous_not_white c : dangerousChars c = true -> is_white_space c = false.
Proof.
  unfold dangerousChars. rewrite existsb_exists.
  intros (x & Hin & Hx). apply N.eqb_eq in Hx. subst x.
  simpl in Hin. intuition (subst; reflexivity).
Qed.

(** [trimStart] only removes a prefix of white space. *)
Lemma trimStart_split (s : jsstring) :
  exists l, s = l ++ trimStart s /\ forallb is_white_space l = true.
Proof.
  induction s as [|c s (l & Hs & Hl)]; simpl.
  - exists []. split; reflexivity.
  - destruct (is_white_space c) eqn:Hc.
    + exists (c :: l). simpl. rewrite Hc, Hl. split; [congruence | reflexivity].
    + exists []. split; reflexivity.
Qed.

Lemma trimStart_head (s : jsstring) c r :
  trimStart s = c :: r -> is_white_space c = false.
Proof.
  induction s as [|a s IH]; simpl; [discriminate|].
  destruct (is_white_space a) eqn:Ha; [exact IH|].
  intros [= <- _]. exact Ha.
Qed.

(** [trim] removes white space at both ends and nothing else. *)
Lemma trim_split (s : jsstring) :
  exists l r, s = l ++ trim s ++ r
              /\ forallb is_white_space l = true
              /\ forallb is_white_space r = true.
Proof.
  unfold trim, trimEnd.
  destruct (trimStart_split s) as (l & Hs & Hl).
  destruct (trimStart_split (rev (trimStart s))) as (r & Hr & Hrw).
  exists l, (rev r). split; [|split].
  - rewrite Hs at 1. f_equal.
    rewrite <- (rev_involutive (trimStart s)), Hr at 1.
    apply rev_app_distr.
  - exact Hl.
  - rewrite forallb_forall in *. intros x Hx. apply Hrw. now apply in_rev.
Qed.

Lemma dangerous_white_free (l : jsstring) :
  forallb is_white_space l = true -> dangerousChars_test l = false.
Proof.
  unfold dangerousChars_test. induction l as [|c l IH]; simpl; [reflexivity|].
  intros [Hc Hl]%andb_true_iff. rewrite (IH Hl), orb_false_r.
  destruct (dangerousChars c) eqn:Hd; [|reflexivity].
  apply dangerous_not_white in Hd. congruence.
Qed.

(** Trimming neither removes nor adds a dangerous character. *)
Lemma dangerousChars_test_trim (s : jsstring) :
  dangerousChars_test (trim s) = dangerousChars_test s.
Proof.
  destruct (trim_split s) as (l & r & Hs & Hl & Hr).
  apply dangerous_white_free in Hl, Hr.
  rewrite Hs at 2. unfold dangerousChars_test in *.
  rewrite !existsb_app, Hl, Hr.
  now rewrite orb_false_r.
Qed.

Lemma dangerousChars_test_true (s : jsstring) :
  dangerousChars_test s = true <-> exists c, c ∈ s /\ dangerousChars c = true.
Proof.
  unfold dangerousChars_test. rewrite existsb_exists.
  split; intros (c & Hc & Hd); exists c; split; auto; now apply list_elem_of_In.
Qed.

Lemma dangerousChars_iff c :
  dangerousChars c = true <-> c ∈ lit "<>" ++ [34%N] ++ lit "'&".
Proof.
  unfold dangerousChars. rewrite existsb_exists. split.
  - intros (x & Hin & ->%N.eqb_eq). apply list_elem_of_In.
    simpl in *. tauto.
  - intros Hin%list_elem_of_In. exists c. split; [|apply N.eqb_refl].
    simpl in *. tauto.
Qed.

(** C4. [validateCityName] applies its five rules in order, the first one
    that fails deciding the error: a value that is not a string, or the
    empty string, is refused as missing; then a string that trims to
    nothing; then one that trims to fewer than 2 characters; then one that
    trims to more than 100; then one that contains one of the characters
    less-than, greater-than, double quote, single quote or ampersand.  A
    string that trims to 2 to 100 characters and contains none of them is
    accepted, and the value returned is its trimmed form. *)
Theorem validateCityName_rules (cityName : jsval) :
  ((forall s, cityName = VStr s -> s = []) ->
     validateCityName cityName = Throw (new_Error msg_required))
  /\ (forall s, cityName = VStr s -> s <> [] ->
        (length (trim s) = 0%nat ->
           validateCityName cityName = Throw (new_Error msg_empty))
        /\ (length (trim s) = 1%nat ->
              validateCityName cityName = Throw (new_Error msg_too_short))
        /\ ((100 < length (trim s))%nat ->
              validateCityName cityName = Throw (new_Error msg_too_long))
        /\ ((2 <= length (trim s) <= 100)%nat ->
              (exists c, c ∈ s /\ dangerousChars c = true) ->
              validateCityName cityName = Throw (new_Error msg_invalid_chars))
        /\ ((2 <= length (trim s) <= 100)%nat ->
              (forall c, c ∈ s -> dangerousChars c = false) ->
              validateCityName cityName = Ok (trim s))).
Proof.
  split.
  - intros H. destruct cityName as [| | | |s| |]; try reflexivity.
    destruct s; [reflexivity|]. now specialize (H _ eq_refl).
  - intros s -> Hs. destruct s as [|c0 s0]; [congruence|].
    set (s := c0 :: s0). unfold validateCityName. fold s.
    pose proof (dangerousChars_test_trim s) as Hd.
    repeat split.
    + intros ->. reflexivity.
    + intros ->. reflexivity.
    + intros H. destruct (Nat.eqb_spec (length (trim s)) 0); [lia|].
      destruct (Nat.ltb_spec (length (trim s)) 2); [lia|].
      destruct (Nat.ltb_spec 100 (length (trim s))); [reflexivity|lia].
    + intros H Hex. destruct (Nat.eqb_spec (length (trim s)) 0); [lia|].
      destruct (Nat.ltb_spec (length (trim s)) 2); [lia|].
      destruct (Nat.ltb_spec 100 (length (trim s))); [lia|].
      apply dangerousChars_test_true in Hex. now rewrite Hd, Hex.
    + intros H Hall. destruct (Nat.eqb_spec (length (trim s)) 0); [lia|].
      destruct (Nat.ltb_spec (length (trim s)) 2); [lia|].
      destruct (Nat.ltb_spec 100 (length (trim s))); [lia|].
      rewrite Hd. destruct (dangerousChars_test s) eqn:Ht; [|reflexivity].
      apply dangerousChars_test_true in Ht as (c & Hc & Hdc).
      rewrite (Hall c Hc) in Hdc. discriminate.
Qed.

(** The accepting rule at [" London "], the rejecting ones at a string of
    blanks, at ["a"] and at ["a<b"]. *)
Lemma validateCityName_rules_witness :
  validateCityName (VStr (lit " London ")) = Ok (lit "London")
  /\ validateCityName (VNum NaN) = Throw (new_Error msg_required)
  /\ validateCityName (VStr (lit "a<b")) = Throw (new_Error msg_invalid_chars).
Proof.
  split; [|split].
  - apply (validateCityName_rules (VStr (lit " London "))) with (s := lit " London ").
    + reflexivity.
    + discriminate.
    + vm_compute. lia.
    + intros c Hc. vm_compute in Hc.
      repeat (apply elem_of_cons in Hc as [-> | Hc]; [reflexivity|]).
      now apply elem_of_nil in Hc.
  - apply (validateCityName_rules (VNum NaN)). intros s Hs. discriminate.
  - apply (validateCityName_rules (VStr (lit "a<b"))) with (s := lit "a<b").
    + reflexivity.
    + discriminate.
    + vm_compute. lia.
    + exists 60%N. split; [|reflexivity]. vm_compute. apply elem_of_cons. right. apply elem_of_cons. now left.
Defined.

End ValidatorProperties.

(** ** The retrying fetcher *)

Module FetcherProperties.
Import NetworkUtils.

Section Retry.
Variable net : nat -> request -> outcome.

Lemma fetch_count_app (t u : trace) :
  fetch_count (t ++ u) = (fetch_count t + fetch_count u)%nat.
Proof. unfold fetch_count. now rewrite List.filter_app, length_app. Qed.

(** One attempt performs exactly one fetch; it returns exactly when the
    network answers with an [ok] response. *)
Lemma attempt_once_run (req : request) (t : trace) :
  exists r, attempt_once net req t = (r, t ++ [EvFetch req])
            /\ (succeeds net (fetch_count t) req = true <-> exists resp, r = Ok resp).
Proof.
  unfold attempt_once, bind, fetch, succeeds, ret, throw.
  destruct (net (fetch_count t) req) as [resp|e].
  - destruct (ok resp) eqn:Hok; eexists; (split; [reflexivity|]).
    + split; eauto.
    + split; [discriminate | intros [? [=]]].
  - eexists. split; [reflexivity|]. split; [discriminate | intros [? [=]]].
Qed.

(** The loop from attempt [attempt] on: it stops at the first attempt
    that succeeds or at attempt [maxRetries], and its events follow the
    schedule. *)
Lemma retry_loop_schedule (req : request) (maxRetries : Z) :
  forall (fuel : nat) (attempt : Z) (t : trace),
    attempt <= maxRetries ->
    Z.of_nat fuel = maxRetries - attempt + 1 ->
    exists r retries,
      retry_loop net fuel attempt maxRetries req t
        = (r, t ++ schedule req attempt retries)
      /\ attempt + Z.of_nat retries <= maxRetries
      /\ (forall j, (j < retries)%nat ->
            succeeds net (fetch_count t + j) req = false)
      /\ (succeeds net (fetch_count t + retries) req = true ->
            exists resp, r = Ok (Some resp))
      /\ (succeeds net (fetch_count t + retries) req = false ->
            attempt + Z.of_nat retries = maxRetries /\ exists e, r = Throw e).
Proof.
  induction fuel as [|fuel IH]; intros attempt t Hle Hfuel; [lia|].
  cbn [retry_loop]. destruct (Z.leb_spec attempt maxRetries); [|lia].
  unfold try_catch at 1. unfold bind at 1.
  destruct (attempt_once_run req t) as (r1 & -> & Hr1).
  destruct r1 as [resp|e].
  - exists (Ok (Some resp)), 0%nat. cbn [schedule ret].
    assert (Hs : succeeds net (fetch_count t) req = true) by (apply Hr1; eauto).
    rewrite Nat.add_0_r, Hs.
    split; [reflexivity|]. split; [lia|]. split; [intros; lia|].
    split; [eauto | discriminate].
  - assert (Hfail : succeeds net (fetch_count t) req = false).
    { destruct (succeeds net (fetch_count t) req); [|reflexivity].
      destruct Hr1 as [Hr1 _]. destruct (Hr1 eq_refl) as [? [=]]. }
    destruct (Z.eqb_spec attempt maxRetries) as [Heq|Hne].
    + exists (Throw (final_error e)), 0%nat. cbn [schedule throw].
      rewrite Nat.add_0_r, Hfail.
      split; [reflexivity|]. split; [lia|]. split; [intros; lia|].
      split; [discriminate|]. intros _. split; [lia | eauto].
    + unfold bind, wait.
      destruct (IH (attempt + 1) ((t ++ [EvFetch req]) ++ [EvWait (2 ^ (attempt - 1) * 1000)]))
        as (r & retries & Hrun & Hbound & Hprev & Hok & Hko); [lia|lia|].
      assert (Hcount : fetch_count ((t ++ [EvFetch req]) ++ [EvWait (2 ^ (attempt - 1) * 1000)])
                       = S (fetch_count t)).
      { rewrite !fetch_count_app. cbn. lia. }
      rewrite Hcount in *.
      exists r, (S retries). cbn [schedule].
      rewrite Hrun, <- !app_assoc. cbn [app].
      rewrite (Z.mul_comm 1000). split; [reflexivity|].
      replace (fetch_count t + S retries)%nat with (S (fetch_count t) + retries)%nat by lia.
      split; [lia|]. split; [|split; [exact Hok|]].
      * intros [|j] Hj; [now rewrite Nat.add_0_r|].
        replace (fetch_count t + S j)%nat with (S (fetch_count t) + j)%nat by lia.
        apply Hprev. lia.
      * intros H'. destruct (Hko H') as [? ?]. split; [lia | assumption].
Qed.

(** The number of fetches of a schedule. *)
Lemma fetch_count_schedule req attempt retries :
  fetch_count (schedule req attempt retries) = S retries.
Proof.
  revert attempt. induction retries as [|r IH]; intros attempt; [reflexivity|].
  cbn [schedule]. change (fetch_count (EvFetch req :: EvWait (1000 * 2 ^ (attempt - 1)) :: schedule req (attempt + 1) r))
    with (S (fetch_count (schedule req (attempt + 1) r))).
  now rewrite IH.
Qed.

(** For any positive budget the fetcher makes at most [maxRetries]
    fetches, waits [1000 * 2 ^ (i - 1)] ms after each failed attempt [i]
    but the last, and ends on a fetch. *)
Lemma fetchWithRetry_schedule (req : request) (maxRetries : Z) (t : trace) :
  1 <= maxRetries ->
  exists r retries,
    fetchWithRetry net req maxRetries t = (r, t ++ schedule req 1 retries)
    /\ Z.of_nat (fetch_count (schedule req 1 retries)) <= maxRetries.
Proof.
  intros H. unfold fetchWithRetry.
  destruct (retry_loop_schedule req maxRetries (Z.to_nat maxRetries) 1 t)
    as (r & retries & Hrun & Hbound & _); [lia|lia|].
  exists r, retries. split; [exact Hrun|].
  rewrite fetch_count_schedule. lia.
Qed.

(** With a budget that is not positive the loop body never runs. *)
Lemma fetchWithRetry_no_budget (req : request) (maxRetries : Z) (t : trace) :
  maxRetries <= 0 -> fetchWithRetry net req maxRetries t = (Ok None, t).
Proof.
  intros H. unfold fetchWithRetry.
  destruct (Z.to_nat maxRetries) eqn:Hn; [reflexivity|].
  cbn [retry_loop]. destruct (Z.leb_spec 1 maxRetries); [lia|reflexivity].
Qed.

(** C5. With [maxRetries = 3] a run of [fetchWithRetry] is one of three:
    a single fetch that succeeds; a failed fetch, a wait of 1000 ms and
    a fetch that succeeds; or two failed fetches followed by waits of
    1000 ms and 2000 ms and a third fetch, whose success or failure
    ends the call with no wait after it.  So at most 3 fetches are
    made, and a call that fails twice and then succeeds has waited
    3000 ms. *)
Theorem fetchWithRetry_backoff (req : request) (t : trace) :
  exists r evs,
    fetchWithRetry net req 3 t = (r, t ++ evs)
    /\ (fetch_count evs <= 3)%nat
    /\ let k := fetch_count t in
       (evs = [EvFetch req]
          /\ succeeds net k req = true /\ (exists resp, r = Ok (Some resp))
        \/ evs = [EvFetch req; EvWait 1000; EvFetch req]
          /\ succeeds net k req = false /\ succeeds net (k + 1) req = true
          /\ (exists resp, r = Ok (Some resp))
        \/ evs = [EvFetch req; EvWait 1000; EvFetch req; EvWait 2000; EvFetch req]
          /\ succeeds net k req = false /\ succeeds net (k + 1) req = false
          /\ total_wait evs = 3000
          /\ if succeeds net (k + 2) req then exists resp, r = Ok (Some resp)
             else exists e, r = Throw e).
Proof.
  unfold fetchWithRetry.
  destruct (retry_loop_schedule req 3 (Z.to_nat 3) 1 t)
    as (r & retries & Hrun & Hbound & Hprev & Hok & Hko); [lia|lia|].
  exists r, (schedule req 1 retries). split; [exact Hrun|].
  split; [rewrite fetch_count_schedule; lia|].
  cbv zeta.
  destruct retries as [|[|[|retries]]]; [| | |lia].
  - left. rewrite Nat.add_0_r in *. split; [reflexivity|].
    destruct (succeeds net (fetch_count t) req) eqn:Hs.
    + split; [reflexivity | now apply Hok].
    + destruct (Hko eq_refl) as [? _]. lia.
  - right; left. split; [reflexivity|].
    pose proof (Hprev 0%nat ltac:(lia)) as H0. rewrite Nat.add_0_r in H0.
    split; [exact H0|].
    destruct (succeeds net (fetch_count t + 1) req) eqn:Hs.
    + split; [reflexivity | now apply Hok].
    + destruct (Hko eq_refl) as [? _]. lia.
  - right; right. split; [reflexivity|].
    pose proof (Hprev 0%nat ltac:(lia)) as H0. rewrite Nat.add_0_r in H0.
    pose proof (Hprev 1%nat ltac:(lia)) as H1.
    split; [exact H0|]. split; [exact H1|]. split; [reflexivity|].
    destruct (succeeds net (fetch_count t + 2) req) eqn:Hs.
    + now apply Hok.
    + now destruct (Hko eq_refl) as [_ ?].
Qed.

End Retry.

(** Two faults and a success on the third attempt: the call succeeds after
    waits of 1000 ms and 2000 ms.  Three faults: the call fails after the
    same waits, a connection fault being reported as such. *)
Example fetchWithRetry_third_attempt :
  let req := Geocoding (lit "Paris") 1 in
  let resp := geocoding_response (Fin (4885 # 100)) (Fin (235 # 100)) "Paris" in
  fetchWithRetry (flaky resp) req 3 [] = (Ok (Some resp), schedule req 1 2)
  /\ total_wait (schedule req 1 2) = 3000
  /\ fetchWithRetry offline req 3 [] = (Throw (new_Error msg_connection), schedule req 1 2).
Proof. repeat split. Qed.

End FetcherProperties.

(** ** The monad of traces *)

Module MonadLemmas.

Lemma quiet_ret {A} (a : A) : quiet (ret a).
Proof. intros t. reflexivity. Qed.

Lemma quiet_throw {A} (e : error) : quiet (@throw A e).
Proof. intros t. reflexivity. Qed.

Lemma quiet_lift {A} (r : result A) : quiet (lift r).
Proof. intros t. reflexivity. Qed.

Lemma quiet_bind {A B} (m : M A) (k : A -> M B) :
  quiet m -> (forall a, quiet (k a)) -> quiet (bind m k).
Proof.
  intros Hm Hk t. unfold bind. specialize (Hm t).
  destruct (m t) as [[a|e] t1]; simpl in *; subst t1; [apply Hk | reflexivity].
Qed.

Lemma quiet_if {A} (b : bool) (m1 m2 : M A) :
  quiet m1 -> quiet m2 -> quiet (if b then m1 else m2).
Proof. now destruct b. Qed.

Lemma quiet_response_json (r : option response) : quiet (NetworkUtils.response_json r).
Proof. destruct r; [apply quiet_lift | apply quiet_throw]. Qed.

(** After the network phase [m], a quiet continuation and a quiet handler
    leave the trace as [m] left it. *)
Lemma try_catch_bind_trace {A B} (m : M A) (k : A -> M B) (h : error -> M B) t :
  (forall a, quiet (k a)) -> (forall e, quiet (h e)) ->
  snd (try_catch (bind m k) h t) = snd (m t).
Proof.
  intros Hk Hh. unfold try_catch, bind.
  destruct (m t) as [[a|e] t1]; simpl.
  - specialize (Hk a t1). destruct (k a t1) as [[b|e] t2]; simpl in *; subst t2.
    + reflexivity.
    + apply Hh.
  - apply Hh.
Qed.

Lemma bind_Ok_inv {A B} (m : M A) (k : A -> M B) t b t' :
  bind m k t = (Ok b, t') ->
  exists a t1, m t = (Ok a, t1) /\ k a t1 = (Ok b, t').
Proof.
  unfold bind. destruct (m t) as [[a|e] t1]; [eauto | discriminate].
Qed.

Lemma lift_Ok_inv {A} (r : result A) t a t' :
  lift r t = (Ok a, t') -> r = Ok a /\ t' = t.
Proof. unfold lift. now intros [= -> ->]. Qed.

Lemma try_catch_throwing_inv {A} (m : M A) (h : error -> M A) t a t' :
  (forall e t1, exists e', h e t1 = (Throw e', t1)) ->
  try_catch m h t = (Ok a, t') -> m t = (Ok a, t').
Proof.
  intros Hh. unfold try_catch. destruct (m t) as [[a0|e] t1]; [auto|].
  destruct (Hh e t1) as (e' & ->). discriminate.
Qed.

End MonadLemmas.

Create HintDb quiet.
#[global] Hint Resolve MonadLemmas.quiet_ret MonadLemmas.quiet_throw
  MonadLemmas.quiet_lift MonadLemmas.quiet_if MonadLemmas.quiet_response_json : quiet.

(** ** The forecast request *)

Module ForecastProperties.
Import NetworkUtils WeatherService MonadLemmas.

(** The handler of [getWeatherData] lets the three coordinate errors
    through unchanged. *)
Lemma coordinate_errors_pass_through msg :
  msg ∈ [msg_invalid_coordinates; msg_invalid_latitude; msg_invalid_longitude] ->
  includes msg (lit "Invalid coordinates")
  || includes msg (lit "Invalid latitude")
  || includes msg (lit "Invalid longitude") = true.
Proof.
  intros H. repeat (apply elem_of_cons in H as [-> | H]; [vm_compute; reflexivity|]).
  now apply elem_of_nil in H.
Qed.

Lemma valid_latitude_checks x :
  isNaN x = false ->
  num_lt x (of_Z (-90)) || num_gt x (of_Z 90) = negb (valid_latitude x).
Proof.
  destruct x as [| | |q]; try discriminate; try reflexivity. intros _.
  unfold num_gt, num_lt, valid_latitude, of_Z.
  now rewrite negb_andb.
Qed.

Lemma valid_longitude_checks y :
  isNaN y = false ->
  num_lt y (of_Z (-180)) || num_gt y (of_Z 180) = negb (valid_longitude y).
Proof.
  destruct y as [| | |q]; try discriminate; try reflexivity. intros _.
  unfold num_gt, num_lt, valid_longitude, of_Z.
  now rewrite negb_andb.
Qed.

Section Forecast.
Variable net : nat -> request -> outcome.

(** A pair with a [NaN] or an out-of-range value is refused with one of
    the three coordinate errors before any network call: the generic
    one when a value is [NaN] (or zero), else the bound of the latitude,
    else the bound of the longitude. *)
Lemma getWeatherData_refuses (x y : number) (t : trace) :
  valid_latitude x && valid_longitude y = false ->
  exists msg,
    msg ∈ [msg_invalid_coordinates; msg_invalid_latitude; msg_invalid_longitude]
    /\ getWeatherData net x y t = (Throw (new_Error msg), t).
Proof.
  intros Hv. unfold getWeatherData, try_catch.
  destruct (not_number x || not_number y || isNaN x || isNaN y) eqn:H1.
  { exists msg_invalid_coordinates. split; [set_solver|]. reflexivity. }
  apply orb_false_iff in H1 as [[_ Hx]%orb_false_iff Hy].
  rewrite (valid_latitude_checks x Hx), (valid_longitude_checks y Hy).
  destruct (valid_latitude x).
  - simpl in Hv. rewrite Hv. simpl.
    exists msg_invalid_longitude. split; [set_solver|]. reflexivity.
  - simpl. exists msg_invalid_latitude. split; [set_solver|]. reflexivity.
Qed.

(** A pair of finite, non-zero, in-range values passes the validation:
    the next event of the run is the forecast request. *)
Lemma getWeatherData_accepts (x y : number) (t : trace) :
  valid_latitude x && valid_longitude y = true ->
  not_number x = false -> not_number y = false ->
  exists r evs,
    getWeatherData net x y t = (r, t ++ EvFetch (Forecast x y) :: evs).
Proof.
  intros [Hx Hy]%andb_true_iff Hzx Hzy.
  assert (Hnx : isNaN x = false) by now destruct x.
  assert (Hny : isNaN y = false) by now destruct y.
  unfold getWeatherData.
  rewrite Hzx, Hzy, Hnx, Hny, (valid_latitude_checks x Hnx),
    (valid_longitude_checks y Hny), Hx, Hy.
  cbn [orb negb].
  match goal with |- context [try_catch (bind ?m ?k) ?h t] =>
    pose proof (try_catch_bind_trace m k h t) as Htr;
    destruct (try_catch (bind m k) h t) as [r t'] end.
  destruct (FetcherProperties.fetchWithRetry_schedule net (Forecast x y) 3 t)
    as (r0 & retries & Hrun & _); [lia|].
  rewrite Hrun in Htr. cbn [snd] in Htr.
  rewrite Htr.
  - exists r. destruct retries; cbn [schedule]; eauto.
  - intros a. repeat (apply quiet_bind; [auto with quiet | intros ?]).
    auto with quiet.
  - intros e. auto with quiet.
Qed.

End Forecast.

(** C1. At the Greenwich meridian, latitude 51.4779 and longitude 0, both
    values are finite and within their bounds, yet [getWeatherData]
    refuses the pair with the generic coordinate error, before any network
    call: the test [!longitude] takes zero for a missing value. *)
Theorem getWeatherData_refuses_zero (net : nat -> request -> outcome) (t : trace) :
  let latitude := Fin (514779 # 10000) in
  let longitude := Fin 0 in
  valid_latitude latitude && valid_longitude longitude = true
  /\ getWeatherData net latitude longitude t
     = (Throw (new_Error msg_invalid_coordinates), t).
Proof. split; reflexivity. Qed.

End ForecastProperties.

(** ** Geocoding *)

Module GeocodingProperties.
Import NetworkUtils WeatherService MonadLemmas.

(** What [validateCityName] accepts. *)
Lemma validateCityName_Ok_inv (v : jsval) (validated : jsstring) :
  validateCityName v = Ok validated ->
  exists s, v = VStr s /\ validated = trim s
            /\ (2 <= length validated <= 100)%nat
            /\ dangerousChars_test validated = false.
Proof.
  destruct v as [| | | |s| |]; try discriminate.
  destruct s as [|c s]; [discriminate|]. unfold validateCityName.
  destruct (Nat.eqb_spec (length (trim (c :: s))) 0); [discriminate|].
  destruct (Nat.ltb_spec (length (trim (c :: s))) 2); [discriminate|].
  destruct (Nat.ltb_spec 100 (length (trim (c :: s)))); [discriminate|].
  destruct (dangerousChars_test (trim (c :: s))) eqn:Hd; [discriminate|].
  intros [= <-]. exists (c :: s). repeat split; auto; lia.
Qed.

Section Geocoding.
Variable net : nat -> request -> outcome.
Variable parseFloat : jsval -> number.



End Geocoding.

End GeocodingProperties.

(** ** From geocoding to the forecast *)

Module ResolutionProperties.
Import NetworkUtils WeatherService MonadLemmas.
Import ForecastProperties GeocodingProperties.

(** With neither value [NaN] or zero, a refusal names the bound that is
    violated. *)
Lemma getWeatherData_refuses_range net (x y : number) (t : trace) :
  not_number x = false -> not_number y = false ->
  valid_latitude x && valid_longitude y = false ->
  getWeatherData net x y t
  = (Throw (new_Error (if valid_latitude x then msg_invalid_longitude
                       else msg_invalid_latitude)), t).
Proof.
  intros Hzx Hzy Hv.
  assert (Hnx : isNaN x = false) by now destruct x.
  assert (Hny : isNaN y = false) by now destruct y.
  unfold getWeatherData.
  rewrite Hzx, Hzy, Hnx, Hny, (valid_latitude_checks x Hnx),
    (valid_longitude_checks y Hny).
  destruct (valid_latitude x); simpl in Hv |- *; [rewrite Hv|]; reflexivity.
Qed.




End ResolutionProperties.

(** ** The outcomes of geocoding *)

Module ResolverProperties.
Import NetworkUtils WeatherService MonadLemmas GeocodingProperties.

Section Resolver.
Variable net : nat -> request -> outcome.
Variable parseFloat : jsval -> number.

(** X26. What [getCoordinates] makes of a response whose body is an object.
    Without [results], or with an empty list, it throws the
    no-results error, unwrapped.  With a top result that is an object,
    it throws the invalid-data error, unwrapped, when the latitude, the
    longitude or the name is falsy (absent, [null], [NaN], zero or the
    empty string), and otherwise returns the record, the country
    defaulting to ["Unknown"] and the region to [null]. *)
Lemma getCoordinates_response
    (cityName : jsval) (validated encoded : jsstring) (t t' : trace)
    (resp : response) (fields : list (jsstring * jsval)) :
  validateCityName cityName = Ok validated ->
  encodeURIComponent validated = Ok encoded ->
  fetchWithRetry net (Geocoding encoded 1) 3 t = (Ok (Some resp), t') ->
  json resp = Ok (VObj fields) ->
  let results := assoc (lit "results") fields in
  (results = VUndef \/ results = VNull \/ results = VArr [] ->
     getCoordinates net parseFloat cityName t
     = (Throw (new_Error (msg_no_results validated)), t'))
  /\ (forall top rest, results = VArr (VObj top :: rest) ->
        let lat := assoc (lit "latitude") top in
        let lon := assoc (lit "longitude") top in
        let nm := assoc (lit "name") top in
        getCoordinates net parseFloat cityName t
        = if truthy lat && truthy lon && truthy nm then
            (Ok {| latitude := parseFloat lat;
                   longitude := parseFloat lon;
                   name := nm;
                   country := js_or (assoc (lit "country") top) (VStr (lit "Unknown"));
                   admin1 := js_or (assoc (lit "admin1") top) VNull |}, t')
          else (Throw (new_Error msg_invalid_location), t')).
Proof.
  intros Hval Henc Hfetch Hjson results.
  assert (Hpass : includes (msg_no_results validated) (lit "No results found") = true)
    by (vm_compute; reflexivity).
  split.
  - intros Hres. unfold getCoordinates, try_catch, bind at 1.
    rewrite Hval. cbn [lift]. unfold bind at 1. rewrite Henc. cbn [lift].
    unfold bind at 1. rewrite Hfetch. unfold bind at 1.
    cbn [response_json lift]. rewrite Hjson.
    unfold bind at 1. cbn [lift get_prop]. fold results.
    destruct Hres as [-> | [-> | ->]];
      unfold bind, throw; cbn [lift truthy negb orb get_prop String.eqb Ascii.eqb Bool.eqb];
      cbn [message new_Error];
      try change (strict_eq_zero (VNum (length_number (@nil jsval)))) with true;
      cbv beta iota; cbn [message new_Error]; now rewrite Hpass.
  - intros top rest Hres lat lon nm.
    unfold getCoordinates, try_catch, bind at 1.
    rewrite Hval. cbn [lift]. unfold bind at 1. rewrite Henc. cbn [lift].
    unfold bind at 1. rewrite Hfetch. unfold bind at 1.
    cbn [response_json lift]. rewrite Hjson.
    unfold bind at 1. cbn [lift get_prop]. fold results. rewrite Hres.
    unfold bind at 1. cbn [lift truthy get_prop]. cbn [String.eqb Ascii.eqb Bool.eqb].
    replace (strict_eq_zero (VNum (length_number (VObj top :: rest)))) with false
      by (unfold strict_eq_zero, length_number, of_Z, Qeqb0; cbn; reflexivity).
    cbn [negb orb]. unfold bind at 1. cbn [lift get_first].
    unfold bind. cbn [lift get_prop]. fold lat lon nm.
    destruct (truthy lat), (truthy lon), (truthy nm); reflexivity.
Qed.

End Resolver.

(** C3. A geocoding response whose top result lies on the equator, with
    latitude 0, longitude 32.58 and a name, lacks none of the three
    fields; [getCoordinates] nevertheless throws the invalid-data error,
    because the test [!location.latitude] takes zero for a missing
    value. *)
Theorem getCoordinates_refuses_equator (parseFloat : jsval -> number) (t : trace) :
  let resp := geocoding_response (of_Z 0) (Fin (3258 # 100)) "Kayabwe" in
  top_result resp "latitude" = Ok (VNum (of_Z 0))
  /\ top_result resp "longitude" = Ok (VNum (Fin (3258 # 100)))
  /\ top_result resp "name" = Ok (VStr (lit "Kayabwe"))
  /\ getCoordinates (always resp) parseFloat (VStr (lit "Kayabwe")) t
     = (Throw (new_Error msg_invalid_location),
        t ++ [EvFetch (Geocoding (lit "Kayabwe") 1)]).
Proof. repeat split. Qed.

End ResolverProperties.

(** ** Search suggestions *)

Module SuggestionProperties.
Import NetworkUtils WeatherService MonadLemmas GeocodingProperties.

Lemma validated_truthy (v : jsval) (validated : jsstring) :
  validateCityName v = Ok validated -> truthy (VStr validated) = true.
Proof.
  intros (s & _ & _ & Hlen & _)%validateCityName_Ok_inv.
  destruct validated; [cbn in Hlen; lia | reflexivity].
Qed.

(** C9. [searchCities] always returns.  A query that fails validation
    gives the empty list with no network call.  Past validation, a query
    that cannot be encoded, a fetch that fails after its retries, a body
    that is not JSON and a body without properties all give the empty
    list; only a body that can be read gives its [results], or the empty
    list when it has none. *)
Theorem searchCities_never_throws
    (net : nat -> request -> outcome) (query : jsval) (t : trace) :
  (exists v t', searchCities net query t = (Ok v, t'))
  /\ (forall e, validateCityName query = Throw e ->
        searchCities net query t = (Ok (VArr []), t))
  /\ (forall validated, validateCityName query = Ok validated ->
        (forall e, encodeURIComponent_val query = Throw e ->
           searchCities net query t = (Ok (VArr []), t))
        /\ (forall encoded r t',
              encodeURIComponent_val query = Ok encoded ->
              fetchWithRetry net (Geocoding encoded 5) 3 t = (r, t') ->
              (forall e, r = Throw e ->
                 searchCities net query t = (Ok (VArr []), t'))
              /\ (forall resp e, r = Ok (Some resp) -> json resp = Throw e ->
                    searchCities net query t = (Ok (VArr []), t'))
              /\ (forall resp data e, r = Ok (Some resp) -> json resp = Ok data ->
                    get_prop data "results" = Throw e ->
                    searchCities net query t = (Ok (VArr []), t'))
              /\ (forall resp data results, r = Ok (Some resp) -> json resp = Ok data ->
                    get_prop data "results" = Ok results ->
                    searchCities net query t = (Ok (js_or results (VArr [])), t')))).
Proof.
  split; [|split].
  - unfold searchCities, try_catch.
    match goal with |- context [match ?m t with _ => _ end] =>
      destruct (m t) as [[v|e] t1] end; eauto.
  - intros e He. unfold searchCities, try_catch, bind. now rewrite He.
  - intros validated Hval. pose proof (validated_truthy _ _ Hval) as Htr.
    split.
    + intros e He. unfold searchCities, try_catch, bind. rewrite Hval.
      cbn [lift]. rewrite Htr. cbn [negb]. now rewrite He.
    + intros encoded r t' Henc Hfetch.
      assert (Hrun : searchCities net query t
                     = try_catch
                         (bind (fetchWithRetry net (Geocoding encoded 5) 3)
                            (fun response =>
                               bind (response_json response)
                                 (fun data =>
                                    bind (lift (get_prop data "results"))
                                      (fun results => ret (js_or results (VArr []))))))
                         (fun _ => ret (VArr [])) t).
      { unfold searchCities, try_catch. unfold bind at 1. rewrite Hval.
        cbn [lift]. rewrite Htr. cbn [negb]. unfold bind at 1. now rewrite Henc. }
      rewrite Hrun. unfold try_catch, bind. rewrite Hfetch.
      repeat split.
      * now intros e ->.
      * intros resp e -> He. cbn [response_json lift]. now rewrite He.
      * intros resp data e -> Hd He. cbn [response_json lift]. now rewrite Hd, He.
      * intros resp data results -> Hd Hres. cbn [response_json lift].
        now rewrite Hd, Hres.
Qed.

(** The theorem at a one-letter query, which fails validation, and at the
    query ["Paris"] on a network that is down. *)
Lemma searchCities_never_throws_witness :
  searchCities offline (VStr (lit "P")) [] = (Ok (VArr []), [])
  /\ searchCities offline (VStr (lit "Paris")) []
     = (Ok (VArr []),
        schedule (Geocoding (lit "Paris") 5) 1 2).
Proof.
  split.
  - apply (searchCities_never_throws offline (VStr (lit "P")) [])
      with (e := new_Error msg_too_short).
    reflexivity.
  - destruct (searchCities_never_throws offline (VStr (lit "Paris")) [])
      as (_ & _ & H).
    destruct (H (lit "Paris") eq_refl) as [_ H'].
    assert (Hfetch : fetchWithRetry offline (Geocoding (lit "Paris") 5) 3 []
                     = (Throw (new_Error msg_connection),
                        schedule (Geocoding (lit "Paris") 5) 1 2))
      by (vm_compute; reflexivity).
    destruct (H' (lit "Paris") _ _ eq_refl Hfetch) as [Hthrow _].
    exact (Hthrow _ eq_refl).
Defined.

End SuggestionProperties.

(** ** The forecast builders *)

Module BuilderProperties.
Import WeatherDataProcessor.

Lemma Math_round_nearest (q : Q) : nearest q (Math_round (Fin q)).
Proof.
  exists (Qfloor (q + (1 # 2))). split; [reflexivity|].
  pose proof (Qfloor_le (q + (1 # 2))) as Hlo.
  pose proof (Qlt_floor (q + (1 # 2))) as Hhi.
  rewrite inject_Z_plus in Hhi. change (inject_Z 1) with 1%Q in Hhi.
  split; lra.
Qed.


(** The loop of [processHourlyForecast]: once an index is past the end of
    the series, so are the following ones. *)
Lemma for_lt_window {E} (entry : Z -> E) (currentHour len : Z) :
  forall (fuel : nat) (i : Z) (acc : list E),
    i + Z.of_nat fuel = 12 ->
    for_lt fuel i 12
      (fun i acc => if currentHour + i <? len then acc ++ [entry (currentHour + i)] else acc)
      acc
    = acc ++ map entry (seqZ (currentHour + i)
                          (Z.min (12 - i) (Z.max 0 (len - currentHour - i)))).
Proof.
  induction fuel as [|fuel IH]; intros i acc Hi.
  - cbn [for_lt]. rewrite seqZ_nil by lia. now rewrite app_nil_r.
  - cbn [for_lt]. destruct (Z.ltb_spec i 12); [|lia].
    rewrite IH by lia. destruct (Z.ltb_spec (currentHour + i) len).
    + rewrite <- app_assoc. f_equal.
      rewrite (seqZ_cons (currentHour + i)) by lia. cbn [map app].
      do 2 f_equal. f_equal; lia.
    + rewrite !seqZ_nil by lia. reflexivity.
Qed.

Section Clock.
Variable toLocaleTimeString : option jsstring -> jsstring.
Variable getHours : option jsstring -> number.
Variable getDay : option jsstring -> number.

Lemma processHourlyForecast_eq (hourly : Hourly.t) (currentHour : Z) :
  processHourlyForecast toLocaleTimeString getHours hourly currentHour
  = map (hourly_entry toLocaleTimeString getHours hourly)
      (seqZ currentHour
         (Z.min 12 (Z.max 0 (Z.of_nat (length (Hourly.time hourly)) - currentHour)))).
Proof.
  unfold processHourlyForecast.
  rewrite (for_lt_window (hourly_entry toLocaleTimeString getHours hourly)
             currentHour (Z.of_nat (length (Hourly.time hourly))) 12 0 []) by lia.
  cbn [app]. do 2 f_equal; lia.
Qed.


(** C6. For every series and every [currentHour], the hourly builder
    returns the entries built at the consecutive indices [currentHour],
    [currentHour + 1], ..., twelve of them unless the series ends
    first.  From hour 22 of a series of 24 it returns the two entries
    of indices 22 and 23.  The entry at position [k] is built at index
    [currentHour + k], which is before the end of the series (and, for
    a [currentHour] that is not negative, an index of the series); its
    temperature is the nearest integer to the temperature at that index
    and its icon is the one of the weather code at that index. *)
Theorem processHourlyForecast_window (hourly : Hourly.t) (currentHour : Z) :
  let len := Z.of_nat (length (Hourly.time hourly)) in
  let result := processHourlyForecast toLocaleTimeString getHours hourly currentHour in
  result = map (hourly_entry toLocaleTimeString getHours hourly)
             (seqZ currentHour (Z.min 12 (Z.max 0 (len - currentHour))))
  /\ (length result <= 12)%nat
  /\ (len = 24 -> currentHour = 22 ->
        result = [hourly_entry toLocaleTimeString getHours hourly 22;
                  hourly_entry toLocaleTimeString getHours hourly 23])
  /\ (forall (k : nat) (e : HourlyEntry.t), result !! k = Some e ->
        let i := currentHour + Z.of_nat k in
        i < len
        /\ (0 <= currentHour -> is_Some (Hourly.time hourly !! Z.to_nat i))
        /\ e = hourly_entry toLocaleTimeString getHours hourly i
        /\ HourlyEntry.icon e = getWeatherIcon (index_Z (Hourly.weather_code hourly) i)
        /\ forall q, index_Z (Hourly.temperature_2m hourly) i = Some (Fin q) ->
             nearest q (HourlyEntry.temperature e)).
Proof.
  intros len result. subst result. rewrite processHourlyForecast_eq. fold len.
  split; [reflexivity|]. split; [|split].
  - rewrite length_map, length_seqZ. lia.
  - intros -> ->. reflexivity.
  - intros k e Hk. apply list_lookup_fmap_Some in Hk as (i & -> & Hi).
    apply lookup_seqZ in Hi as [-> Hi].
    split; [lia|]. split; [|split; [reflexivity|split; [reflexivity|]]].
    + intros H0. apply lookup_lt_is_Some. lia.
    + intros q Hq. cbn [hourly_entry HourlyEntry.temperature]. rewrite Hq.
      apply Math_round_nearest.
Qed.




End Clock.

(** The window at hour 22 of a day of 24 hourly values. *)
Lemma processHourlyForecast_window_witness :
  let hourly := Hourly.Make (replicate 24 (lit "2024-06-01T00:00"))
                  (replicate 24 (Fin (145 # 2))) (replicate 24 3) in
  length (processHourlyForecast sample_time sample_hours hourly 22) = 2%nat
  /\ forall e, processHourlyForecast sample_time sample_hours hourly 22 !! 1%nat = Some e ->
       HourlyEntry.icon e = getWeatherIcon (Some 3)
       /\ nearest (145 # 2) (HourlyEntry.temperature e).
Proof.
  intros hourly.
  destruct (processHourlyForecast_window sample_time sample_hours hourly 22) as (_ & _ & H24 & Hentry).
  split.
  - now rewrite (H24 eq_refl eq_refl).
  - intros e He. destruct (Hentry 1%nat e He) as (_ & _ & _ & Hicon & Htemp).
    split; [exact Hicon | exact (Htemp (145 # 2) eq_refl)].
Defined.


End BuilderProperties.

(** ** Lookup tables *)

Module TableProperties.
Import WeatherDataProcessor.

(** [array_get] at a non-negative integer is the list lookup. *)
Lemma array_get_of_Z {A} (l : list A) (z : Z) :
  0 <= z -> array_get l (of_Z z) = l !! Z.to_nat z.
Proof.
  intros H. unfold array_get, number_index, of_Z.
  rewrite Qfloor_Z, Qeq_bool_refl.
  destruct (Z.leb_spec 0 z); [reflexivity | lia].
Qed.

Lemma rem_const_of_Z (z m : Z) : rem_const (of_Z z) m = of_Z (Z.rem z m).
Proof. unfold rem_const, of_Z. now rewrite Qfloor_Z, Qeq_bool_refl. Qed.

(** The sector a bearing of [q] degrees rounds to. *)
Lemma sector_bounds (q : Q) :
  (0 <= q)%Q -> (q <= 360)%Q -> 0 <= Qfloor (q / (45 # 2) + (1 # 2)) <= 16.
Proof.
  intros H0 H360.
  assert (Hdiv : (q / (45 # 2) == q * (2 # 45))%Q) by (unfold Qdiv; reflexivity).
  split.
  - change 0 with (Qfloor (inject_Z 0)). apply Qfloor_resp_le.
    rewrite Hdiv. change (inject_Z 0) with 0%Q. lra.
  - change 16 with (Qfloor (inject_Z 16 + (1 # 2))). apply Qfloor_resp_le.
    rewrite Hdiv. change (inject_Z 16) with 16%Q. lra.
Qed.

(** C8. For a bearing between 0 and 360 degrees, [getWindDirection]
    returns the label of the sixteen-label table at index
    [round(degrees / 22.5) mod 16], an index of the table, so the label
    is defined; it returns N for 0, E for 90 and N for 359. *)
Theorem getWindDirection_compass (q : Q) :
  ((0 <= q)%Q -> (q <= 360)%Q ->
     let index := Qfloor (q / (45 # 2) + (1 # 2)) mod 16 in
     0 <= index < 16
     /\ Math_round (div_const (Fin q) (45 # 2)) = of_Z (Qfloor (q / (45 # 2) + (1 # 2)))
     /\ getWindDirection (Fin q) = directions !! Z.to_nat index
     /\ is_Some (getWindDirection (Fin q)))
  /\ getWindDirection (of_Z 0) = Some "N"%string
  /\ getWindDirection (of_Z 90) = Some "E"%string
  /\ getWindDirection (of_Z 359) = Some "N"%string.
Proof.
  split; [|repeat split].
  intros H0 H360 index.
  pose proof (sector_bounds q H0 H360) as Hz.
  assert (Hindex : 0 <= index < 16) by (apply Z.mod_pos_bound; lia).
  assert (Hget : getWindDirection (Fin q) = directions !! Z.to_nat index).
  { unfold getWindDirection. cbn [div_const Math_round].
    rewrite rem_const_of_Z, Z.rem_mod_nonneg by lia.
    now apply array_get_of_Z. }
  split; [exact Hindex|]. split; [reflexivity|]. split; [exact Hget|].
  rewrite Hget. apply lookup_lt_is_Some. cbn. lia.
Qed.

(** A bearing of 45 degrees is NE. *)
Lemma getWindDirection_compass_witness :
  getWindDirection (Fin 45) = Some "NE"%string.
Proof.
  destruct (getWindDirection_compass 45) as [H _].
  destruct H as (_ & _ & -> & _); [vm_compute; discriminate.. | reflexivity].
Defined.

(** A value found in a table built from a list is the second component of
    a pair of the list. *)
Lemma table_values (P : string -> Prop) (l : list (Z * string)) (code : Z) (s : string) :
  Forall (fun p => P p.2) l ->
  (list_to_map l : gmap Z string) !! code = Some s -> P s.
Proof.
  intros Hall Hs. apply elem_of_list_to_map_2 in Hs.
  rewrite Forall_forall in Hall. exact (Hall _ Hs).
Qed.

Lemma or_string_fallback (o : option string) (fallback : string) :
  (forall s, o = Some s -> s <> ""%string /\ s <> fallback) ->
  or_string o fallback = fallback <-> o = None.
Proof.
  intros H. destruct o as [s|]; [|split; reflexivity].
  destruct (H s eq_refl) as [Hne Hnf]. unfold or_string.
  destruct (String.eqb_spec s ""); [contradiction|].
  split; [contradiction | discriminate].
Qed.

Lemma description_fallback (code : Z) :
  getWeatherDescription (Some code) = "Unknown"%string <-> weatherCodes !! code = None.
Proof.
  apply or_string_fallback. intros s Hs.
  revert Hs. apply (table_values (fun s => s <> ""%string /\ s <> "Unknown"%string)).
  repeat (constructor; [split; discriminate|]). constructor.
Qed.

Lemma icon_fallback (code : Z) :
  getWeatherIcon (Some code) = "❓"%string <-> iconMap !! code = None.
Proof.
  apply or_string_fallback. intros s Hs.
  revert Hs. apply (table_values (fun s => s <> ""%string /\ s <> "❓"%string)).
  repeat (constructor; [split; discriminate|]). constructor.
Qed.

(** The 28 codes both tables are keyed on. *)
Lemma table_keys :
  dom weatherCodes = dom iconMap
  /\ size (dom weatherCodes) = 28%nat.
Proof.
  unfold weatherCodes, iconMap. rewrite !dom_list_to_map_L. split; [reflexivity|].
  cbn [fmap list_fmap fst]. 
  rewrite size_list_to_set; [reflexivity|].
  apply NoDup_ListNoDup. repeat constructor; cbn; intuition discriminate.
Qed.

(** C10. For every integer code, [getWeatherDescription] answers
    ["Unknown"] exactly when [getWeatherIcon] answers the placeholder:
    the two tables have the same 28 keys, no description is ["Unknown"]
    and no icon is the placeholder, so a code gets a description and an
    icon of its own, or the fallback of both. *)
Theorem weather_code_fallbacks_agree (code : Z) :
  (getWeatherDescription (Some code) = "Unknown"%string
   <-> getWeatherIcon (Some code) = "❓"%string)
  /\ dom weatherCodes = dom iconMap
  /\ size (dom weatherCodes) = 28%nat
  /\ (code ∈ dom weatherCodes ->
        getWeatherDescription (Some code) <> "Unknown"%string
        /\ getWeatherIcon (Some code) <> "❓"%string)
  /\ (code ∉ dom weatherCodes ->
        getWeatherDescription (Some code) = "Unknown"%string
        /\ getWeatherIcon (Some code) = "❓"%string).
Proof.
  destruct table_keys as [Hdom Hsize].
  assert (Hnone : weatherCodes !! code = None <-> iconMap !! code = None).
  { rewrite <- !not_elem_of_dom, Hdom. reflexivity. }
  split; [|split; [exact Hdom|split; [exact Hsize|split]]].
  - rewrite description_fallback, icon_fallback. exact Hnone.
  - intros Hin. rewrite description_fallback, icon_fallback, <- Hnone.
    rewrite <- not_elem_of_dom. tauto.
  - intros Hout. rewrite description_fallback, icon_fallback, <- Hnone.
    rewrite <- not_elem_of_dom. tauto.
Qed.

(** Code 0 is in the tables, code 9999 is not. *)
Lemma weather_code_fallbacks_agree_witness :
  getWeatherDescription (Some 0) <> "Unknown"%string
  /\ getWeatherDescription (Some 9999) = "Unknown"%string
  /\ getWeatherIcon (Some 9999) = "❓"%string.
Proof.
  split.
  - apply (weather_code_fallbacks_agree 0).
    apply elem_of_dom. exists "Clear sky"%string. reflexivity.
  - apply (weather_code_fallbacks_agree 9999).
    apply not_elem_of_dom. reflexivity.
Defined.

End TableProperties.

(** * Further properties *)

(** ** The validator as a normal form *)

Module ValidatorNormalForm.
Import NetworkUtils ValidatorProperties.

Lemma trimStart_fixed (s : jsstring) :
  (forall c r, s = c :: r -> is_white_space c = false) -> trimStart s = s.
Proof.
  destruct s as [|c r]; [reflexivity|]. intros H. cbn [trimStart].
  now rewrite (H c r eq_refl).
Qed.

Lemma trimStart_idempotent (s : jsstring) : trimStart (trimStart s) = trimStart s.
Proof.
  apply trimStart_fixed. intros c r H. exact (trimStart_head s c r H).
Qed.

(** Trimming the start of a string that ends on a character that is not
    white space keeps that last character. *)
Lemma trimStart_snoc (l : jsstring) (c : N) :
  is_white_space c = false -> exists l', trimStart (l ++ [c]) = l' ++ [c].
Proof.
  intros Hc. induction l as [|a l (l' & IH)]; cbn [app trimStart].
  - rewrite Hc. now exists [].
  - destruct (is_white_space a); [eauto|]. now exists (a :: l).
Qed.

Lemma trimEnd_keeps_start (y : jsstring) :
  trimStart y = y -> trimStart (trimEnd y) = trimEnd y.
Proof.
  intros Hy. destruct y as [|c r]; [reflexivity|].
  assert (Hc : is_white_space c = false)
    by (apply (trimStart_head (c :: r) c r); exact Hy).
  unfold trimEnd. cbn [rev].
  destruct (trimStart_snoc (rev r) c Hc) as (l' & ->).
  rewrite rev_app_distr. cbn [rev app trimStart]. now rewrite Hc.
Qed.

Lemma trim_idempotent (s : jsstring) : trim (trim s) = trim s.
Proof.
  unfold trim.
  rewrite (trimEnd_keeps_start (trimStart s) (trimStart_idempotent s)).
  unfold trimEnd. now rewrite rev_involutive, trimStart_idempotent.
Qed.

Lemma trim_head (s : jsstring) c r : trim s = c :: r -> is_white_space c = false.
Proof.
  intros H. apply (trimStart_head (trim s) c r).
  unfold trim in *.
  now rewrite (trimEnd_keeps_start (trimStart s) (trimStart_idempotent s)).
Qed.

Lemma trim_last (s : jsstring) l c : trim s = l ++ [c] -> is_white_space c = false.
Proof.
  intros H. apply (trimStart_head (rev (trimStart s)) c (rev l)).
  unfold trim, trimEnd in H. apply (f_equal (@rev N)) in H.
  now rewrite rev_involutive, rev_app_distr in H.
Qed.

(** X1. What [validateCityName] returns is a fixed point of the validator:
    it has no white space at either end, so trimming it again changes
    nothing, and validating it again returns it unchanged.  The callers
    rely on this: [loadWeather] and [getCoordinates] each validate the same
    name. *)
Theorem validateCityName_idempotent (cityName : jsval) (validated : jsstring) :
  validateCityName cityName = Ok validated ->
  trim validated = validated
  /\ validateCityName (VStr validated) = Ok validated
  /\ (forall c r, validated = c :: r -> is_white_space c = false)
  /\ (forall l c, validated = l ++ [c] -> is_white_space c = false).
Proof.
  intros H.
  destruct cityName as [| | | |s| |]; try discriminate.
  destruct s as [|c0 s0]; [discriminate|]. unfold validateCityName in H.
  set (s := c0 :: s0) in *.
  destruct (Nat.eqb_spec (length (trim s)) 0) as [|Hn0]; [discriminate|].
  destruct (Nat.ltb_spec (length (trim s)) 2) as [|Hge]; [discriminate|].
  destruct (Nat.ltb_spec 100 (length (trim s))) as [|Hle]; [discriminate|].
  destruct (dangerousChars_test (trim s)) eqn:Hd; [discriminate|].
  injection H as <-.
  assert (Hfix : trim (trim s) = trim s) by apply trim_idempotent.
  split; [exact Hfix|]. split; [|split].
  - destruct (trim s) as [|c r] eqn:Ht; [cbn in Hge; lia|].
    unfold validateCityName. rewrite Hfix.
    destruct (Nat.eqb_spec (length (c :: r)) 0); [lia|].
    destruct (Nat.ltb_spec (length (c :: r)) 2); [lia|].
    destruct (Nat.ltb_spec 100 (length (c :: r))); [lia|].
    now rewrite Hd.
  - intros c r Hcr. exact (trim_head s c r Hcr).
  - intros l c Hlc. exact (trim_last s l c Hlc).
Qed.

(** The name ["  New York  "]: its validated form validates to itself. *)
Lemma validateCityName_idempotent_witness :
  validateCityName (VStr (lit "  New York  ")) = Ok (lit "New York")
  /\ validateCityName (VStr (lit "New York")) = Ok (lit "New York").
Proof.
  assert (H : validateCityName (VStr (lit "  New York  ")) = Ok (lit "New York"))
    by reflexivity.
  split; [exact H|].
  exact (proj1 (proj2 (validateCityName_idempotent _ _ H))).
Defined.

End ValidatorNormalForm.

(** ** The retry loop as a function of the network *)

Module RetryProperties.
Import NetworkUtils FetcherProperties.

Lemma attempt_once_result net (req : request) (t : trace) :
  attempt_once net req t = (attempt_result net (fetch_count t) req, t ++ [EvFetch req]).
Proof.
  unfold attempt_once, attempt_result, bind, fetch, ret, throw.
  destruct (net (fetch_count t) req) as [resp|e]; [|reflexivity].
  now destruct (ok resp).
Qed.

(** The loop stops on the first attempt that succeeds or on the attempt
    that spends the budget; its result is decided by that attempt alone. *)
Lemma retry_loop_result net (req : request) (maxRetries : Z) :
  forall (fuel : nat) (attempt : Z) (t : trace),
    attempt <= maxRetries ->
    Z.of_nat fuel = maxRetries - attempt + 1 ->
    exists retries,
      attempt + Z.of_nat retries <= maxRetries
      /\ (forall j, (j < retries)%nat ->
            exists e, attempt_result net (fetch_count t + j) req = Throw e)
      /\ retry_loop net fuel attempt maxRetries req t
         = (match attempt_result net (fetch_count t + retries) req with
            | Ok resp => Ok (Some resp)
            | Throw e => Throw (final_error e)
            end,
            t ++ schedule req attempt retries)
      /\ ((exists e, attempt_result net (fetch_count t + retries) req = Throw e) ->
            attempt + Z.of_nat retries = maxRetries).
Proof.
  induction fuel as [|fuel IH]; intros attempt t Hle Hfuel; [lia|].
  cbn [retry_loop]. destruct (Z.leb_spec attempt maxRetries); [|lia].
  unfold try_catch at 1. unfold bind at 1. rewrite attempt_once_result.
  destruct (attempt_result net (fetch_count t) req) as [resp|e] eqn:Hres.
  - exists 0%nat. rewrite Nat.add_0_r, Hres. cbn [schedule ret].
    split; [lia|]. split; [intros; lia|]. split; [reflexivity|].
    intros [e [=]].
  - destruct (Z.eqb_spec attempt maxRetries) as [Heq|Hne].
    + exists 0%nat. rewrite Nat.add_0_r, Hres. cbn [schedule throw].
      split; [lia|]. split; [intros; lia|]. split; [reflexivity|]. intros _. lia.
    + unfold bind, wait.
      destruct (IH (attempt + 1) ((t ++ [EvFetch req]) ++ [EvWait (2 ^ (attempt - 1) * 1000)]))
        as (retries & Hbound & Hprev & Hrun & Hlast); [lia|lia|].
      assert (Hcount : fetch_count ((t ++ [EvFetch req]) ++ [EvWait (2 ^ (attempt - 1) * 1000)])
                       = S (fetch_count t)).
      { rewrite !fetch_count_app. cbn. lia. }
      rewrite Hcount in *.
      exists (S retries).
      replace (fetch_count t + S retries)%nat with (S (fetch_count t) + retries)%nat by lia.
      split; [lia|]. split; [|split].
      * intros [|j] Hj; [rewrite Nat.add_0_r; eauto|].
        replace (fetch_count t + S j)%nat with (S (fetch_count t) + j)%nat by lia.
        apply Hprev. lia.
      * rewrite Hrun. cbn [schedule]. rewrite <- !app_assoc. cbn [app].
        now rewrite (Z.mul_comm 1000).
      * intros H'. specialize (Hlast H'). lia.
Qed.

Lemma total_wait_schedule (req : request) (retries : nat) :
  forall attempt, 1 <= attempt ->
    total_wait (schedule req attempt retries)
    = 1000 * 2 ^ (attempt - 1) * (2 ^ Z.of_nat retries - 1).
Proof.
  induction retries as [|r IH]; intros attempt Ha.
  - cbn. lia.
  - cbn [schedule total_wait foldr]. fold (total_wait (schedule req (attempt + 1) r)).
    rewrite IH by lia.
    replace (attempt + 1 - 1) with (Z.succ (attempt - 1)) by lia.
    rewrite Z.pow_succ_r by lia.
    rewrite Nat2Z.inj_succ, Z.pow_succ_r by lia. lia.
Qed.

Lemma schedule_last (req : request) (retries : nat) (attempt : Z) :
  last (schedule req attempt retries) = Some (EvFetch req).
Proof.
  revert attempt. induction retries as [|r IH]; intros attempt; [reflexivity|].
  cbn [schedule]. specialize (IH (attempt + 1)).
  destruct (schedule req (attempt + 1) r) eqn:Hs; [discriminate|].
  exact IH.
Qed.

Lemma schedule_fetch_of (req : request) (retries : nat) (attempt : Z) :
  Forall (fetch_of req) (schedule req attempt retries).
Proof.
  revert attempt. induction retries as [|r IH]; intros attempt; cbn [schedule].
  - repeat constructor.
  - constructor; [reflexivity|]. constructor; [exact I|]. apply IH.
Qed.

Section Budget.
Variable net : nat -> request -> outcome.

(** X2. For every positive budget [maxRetries], a call of [fetchWithRetry]
    fetches the request between once and [maxRetries] times and nothing
    else; after the failed attempt [i] it waits [1000 * 2 ^ (i - 1)] ms, so
    with [r] retries the waits add up to [1000 * (2 ^ r - 1)] ms; and its
    last event is a fetch, never a wait. *)
Theorem fetchWithRetry_budget (req : request) (maxRetries : Z) (t : trace) :
  1 <= maxRetries ->
  exists r retries,
    fetchWithRetry net req maxRetries t = (r, t ++ schedule req 1 retries)
    /\ fetch_count (schedule req 1 retries) = S retries
    /\ Z.of_nat (S retries) <= maxRetries
    /\ total_wait (schedule req 1 retries) = 1000 * (2 ^ Z.of_nat retries - 1)
    /\ last (schedule req 1 retries) = Some (EvFetch req)
    /\ Forall (fetch_of req) (schedule req 1 retries).
Proof.
  intros H. unfold fetchWithRetry.
  destruct (retry_loop_result net req maxRetries (Z.to_nat maxRetries) 1 t)
    as (retries & Hbound & _ & Hrun & _); [lia|lia|].
  eexists _, retries. split; [exact Hrun|].
  split; [apply fetch_count_schedule|]. split; [lia|].
  split; [rewrite total_wait_schedule by lia; cbn; lia|].
  split; [apply schedule_last | apply schedule_fetch_of].
Qed.

(** X3. When [fetchWithRetry] returns, it returns [undefined] exactly when
    the budget is below 1, and has then made no fetch; otherwise it returns
    a response whose [ok] flag is set, which is the answer to the last
    fetch of the call, every attempt before it having failed. *)
Theorem fetchWithRetry_returns_ok (req : request) (maxRetries : Z) (t t' : trace)
    (o : option response) :
  fetchWithRetry net req maxRetries t = (Ok o, t') ->
  (o = None <-> maxRetries < 1)
  /\ (o = None -> t' = t)
  /\ (forall resp, o = Some resp ->
        ok resp = true
        /\ exists retries,
             t' = t ++ schedule req 1 retries
             /\ net (fetch_count t + retries)%nat req = Resolved resp
             /\ forall j, (j < retries)%nat ->
                  succeeds net (fetch_count t + j) req = false).
Proof.
  intros Hrun. destruct (Z.le_gt_cases 1 maxRetries) as [H|H].
  - unfold fetchWithRetry in Hrun.
    destruct (retry_loop_result net req maxRetries (Z.to_nat maxRetries) 1 t)
      as (retries & Hbound & Hprev & Hres & _); [lia|lia|].
    rewrite Hres in Hrun.
    unfold attempt_result in Hrun.
    destruct (net (fetch_count t + retries)%nat req) as [r0|e0] eqn:Hnet;
      [|discriminate].
    destruct (ok r0) eqn:Hok; [|discriminate].
    injection Hrun as <- <-.
    split; [split; [discriminate | lia]|]. split; [discriminate|].
    intros resp [= <-]. split; [exact Hok|].
    exists retries. split; [reflexivity|]. split; [exact Hnet|].
    intros j Hj. destruct (Hprev j Hj) as (e & He).
    unfold attempt_result in He. unfold succeeds.
    destruct (net (fetch_count t + j)%nat req) as [r1|e1]; [|reflexivity].
    destruct (ok r1); [discriminate | reflexivity].
  - rewrite fetchWithRetry_no_budget in Hrun by lia. injection Hrun as <- <-.
    split; [split; [lia | reflexivity]|]. split; [reflexivity | discriminate].
Qed.

(** X4. When every attempt of the budget fails, the error thrown is that of
    the last attempt only: a timeout message when that attempt was aborted,
    a connection message when it was a [TypeError], and otherwise the error
    as it was thrown (for a response that is not [ok], the message built
    from its status). *)
Theorem fetchWithRetry_exhausted (req : request) (maxRetries : Z) (t : trace) :
  1 <= maxRetries ->
  (forall j, (j < Z.to_nat maxRetries)%nat ->
     succeeds net (fetch_count t + j) req = false) ->
  exists e,
    attempt_result net (fetch_count t + Z.to_nat maxRetries - 1) req = Throw e
    /\ fetchWithRetry net req maxRetries t
       = (Throw (final_error e), t ++ schedule req 1 (Z.to_nat maxRetries - 1))
    /\ (name e = lit "AbortError" -> final_error e = new_Error msg_timeout)
    /\ (name e = lit "TypeError" -> final_error e = new_Error msg_connection)
    /\ (name e <> lit "AbortError" -> name e <> lit "TypeError" -> final_error e = e).
Proof.
  intros H Hfail. unfold fetchWithRetry.
  destruct (retry_loop_result net req maxRetries (Z.to_nat maxRetries) 1 t)
    as (retries & Hbound & Hprev & Hres & Hlast); [lia|lia|].
  assert (Hthrow : forall j, (j < Z.to_nat maxRetries)%nat ->
            exists e, attempt_result net (fetch_count t + j) req = Throw e).
  { intros j Hj. specialize (Hfail j Hj). unfold succeeds in Hfail.
    unfold attempt_result. destruct (net (fetch_count t + j)%nat req) as [r|e]; [|eauto].
    rewrite Hfail. eauto. }
  assert (Hr : retries = (Z.to_nat maxRetries - 1)%nat).
  { specialize (Hlast (Hthrow retries ltac:(lia))). lia. }
  subst retries.
  destruct (Hthrow (Z.to_nat maxRetries - 1)%nat ltac:(lia)) as (e & He).
  replace (fetch_count t + (Z.to_nat maxRetries - 1))%nat
    with (fetch_count t + Z.to_nat maxRetries - 1)%nat in * by lia.
  exists e. split; [exact He|]. rewrite Hres, He. split; [reflexivity|].
  unfold final_error. repeat split.
  - intros ->. reflexivity.
  - intros Hn. rewrite Hn. reflexivity.
  - intros H1 H2. destruct (decide (name e = lit "AbortError")); [contradiction|].
    destruct (decide (name e = lit "TypeError")); [contradiction|]. reflexivity.
Qed.

End Budget.

(** A budget of 5 on a network that is down. *)
Lemma fetchWithRetry_budget_witness :
  let req := Geocoding (lit "Paris") 1 in
  exists r retries,
    fetchWithRetry offline req 5 [] = (r, schedule req 1 retries)
    /\ (retries < 5)%nat
    /\ total_wait (schedule req 1 retries) = 1000 * (2 ^ Z.of_nat retries - 1).
Proof.
  intros req.
  destruct (fetchWithRetry_budget offline req 5 [] ltac:(lia))
    as (r & retries & Hrun & _ & Hle & Hwait & _).
  exists r, retries. split; [exact Hrun|]. split; [lia | exact Hwait].
Defined.

(** On the network whose first two fetches fail, the third answer is the
    one returned; with a budget of 0 nothing is fetched. *)
Lemma fetchWithRetry_returns_ok_witness :
  let resp := geocoding_response (Fin (4885 # 100)) (Fin (235 # 100)) "Paris" in
  let req := Geocoding (lit "Paris") 1 in
  fetchWithRetry (flaky resp) req 3 [] = (Ok (Some resp), schedule req 1 2)
  /\ ok resp = true
  /\ fetchWithRetry (flaky resp) req 0 [] = (Ok None, []).
Proof.
  intros resp req.
  assert (H3 : fetchWithRetry (flaky resp) req 3 [] = (Ok (Some resp), schedule req 1 2))
    by reflexivity.
  assert (H0 : fetchWithRetry (flaky resp) req 0 [] = (Ok None, [])) by reflexivity.
  split; [exact H3|]. split; [|exact H0].
  destruct (fetchWithRetry_returns_ok (flaky resp) req 3 [] _ _ H3) as (_ & _ & Hsome).
  exact (proj1 (Hsome resp eq_refl)).
Defined.

(** Three connection faults: the message is the connection message. *)
Lemma fetchWithRetry_exhausted_witness :
  fetchWithRetry offline (Geocoding (lit "Paris") 1) 3 []
  = (Throw (new_Error msg_connection), schedule (Geocoding (lit "Paris") 1) 1 2).
Proof.
  destruct (fetchWithRetry_exhausted offline (Geocoding (lit "Paris") 1) 3 []
              ltac:(lia) ltac:(intros; reflexivity))
    as (e & He & Hrun & _ & Htype & _).
  vm_compute in He. injection He as <-.
  rewrite Hrun, (Htype eq_refl). reflexivity.
Defined.

End RetryProperties.

(** ** The network calls of the service *)

Module ServiceBudget.
Import NetworkUtils WeatherService MonadLemmas FetcherProperties RetryProperties.

Lemma within_budget_nil (req : request) : within_budget req [].
Proof. repeat split; cbn; [lia | lia | constructor]. Qed.

(** A call of the fetcher with the budget of 3 the service uses. *)
Lemma fetchWithRetry_within_budget net (req : request) (t : trace) :
  exists evs, snd (fetchWithRetry net req 3 t) = t ++ evs /\ within_budget req evs.
Proof.
  unfold fetchWithRetry.
  destruct (retry_loop_result net req 3 (Z.to_nat 3) 1 t)
    as (retries & Hbound & _ & Hrun & _); [lia|lia|].
  exists (schedule req 1 retries). rewrite Hrun. split; [reflexivity|].
  split; [rewrite fetch_count_schedule; lia|]. split; [|apply schedule_fetch_of].
  rewrite total_wait_schedule by lia.
  destruct retries as [|[|[|n]]]; cbn; lia.
Qed.

Lemma try_catch_lift_Ok {A B} (a : A) (k : A -> M B) (h : error -> M B) (t : trace) :
  try_catch (bind (lift (Ok a)) k) h t = try_catch (k a) h t.
Proof. reflexivity. Qed.

Lemma try_catch_lift_Throw {A B} (e : error) (k : A -> M B) (h : error -> M B) (t : trace) :
  try_catch (bind (lift (Throw e)) k) h t = h e t.
Proof. reflexivity. Qed.

Ltac quiet_tail :=
  repeat first
    [ apply quiet_bind; [auto with quiet | intros ?]
    | apply quiet_if
    | progress auto with quiet ].

Section Budget.
Variable net : nat -> request -> outcome.
Variable parseFloat : jsval -> number.

Lemma getCoordinates_trace (cityName : jsval) (t : trace) :
  snd (getCoordinates net parseFloat cityName t)
  = match validateCityName cityName with
    | Ok validated =>
        match encodeURIComponent validated with
        | Ok encoded => snd (fetchWithRetry net (Geocoding encoded 1) 3 t)
        | Throw _ => t
        end
    | Throw _ => t
    end.
Proof.
  unfold getCoordinates.
  destruct (validateCityName cityName) as [validated|e].
  - rewrite try_catch_lift_Ok.
    destruct (encodeURIComponent validated) as [encoded|e].
    + rewrite try_catch_lift_Ok. apply try_catch_bind_trace.
      * intros a. quiet_tail.
      * intros e. quiet_tail.
    + rewrite try_catch_lift_Throw.
      destruct (_ || _); reflexivity.
  - rewrite try_catch_lift_Throw. destruct (_ || _); reflexivity.
Qed.

Lemma searchCities_trace (query : jsval) (t : trace) :
  snd (searchCities net query t)
  = match validateCityName query with
    | Ok validated =>
        match encodeURIComponent_val query with
        | Ok encoded => snd (fetchWithRetry net (Geocoding encoded 5) 3 t)
        | Throw _ => t
        end
    | Throw _ => t
    end.
Proof.
  unfold searchCities.
  destruct (validateCityName query) as [validated|e] eqn:Hval.
  - rewrite try_catch_lift_Ok.
    rewrite (SuggestionProperties.validated_truthy _ _ Hval). cbn [negb].
    destruct (encodeURIComponent_val query) as [encoded|e].
    + rewrite try_catch_lift_Ok. apply try_catch_bind_trace.
      * intros a. quiet_tail.
      * intros e. quiet_tail.
    + reflexivity.
  - reflexivity.
Qed.

Lemma getWeatherData_trace (x y : number) (t : trace) :
  snd (getWeatherData net x y t) = t
  \/ snd (getWeatherData net x y t) = snd (fetchWithRetry net (Forecast x y) 3 t).
Proof.
  unfold getWeatherData.
  destruct (not_number x || not_number y || isNaN x || isNaN y); [left; reflexivity|].
  destruct (num_lt x (of_Z (-90)) || num_gt x (of_Z 90)); [left; reflexivity|].
  destruct (num_lt y (of_Z (-180)) || num_gt y (of_Z 180)); [left; reflexivity|].
  right. apply try_catch_bind_trace.
  - intros a. quiet_tail.
  - intros e. quiet_tail.
Qed.

Lemma reverseGeocode_trace (x y : number) (t : trace) :
  snd (reverseGeocode net x y t) = snd (fetchWithRetry net (Reverse x y) 3 t).
Proof.
  unfold reverseGeocode. apply try_catch_bind_trace.
  - intros a. quiet_tail.
  - intros e. quiet_tail.
Qed.

(** X5. One call of a service method makes at most three fetches, all of
    one request, and waits at most three seconds in all.  [getCoordinates]
    asks for one result for the trimmed name, [searchCities] for five
    results for the query as it was typed, [getWeatherData] and
    [reverseGeocode] for the coordinates as given; a city name that is not a
    string causes no event at all. *)
Theorem service_network_budget :
  (forall cityName t, exists evs,
     snd (getCoordinates net parseFloat cityName t) = t ++ evs
     /\ match cityName with
        | VStr s => within_budget (Geocoding (trim s) 1) evs
        | _ => evs = []
        end)
  /\ (forall query t, exists evs,
        snd (searchCities net query t) = t ++ evs
        /\ match query with
           | VStr s => within_budget (Geocoding s 5) evs
           | _ => evs = []
           end)
  /\ (forall latitude longitude t, exists evs,
        snd (getWeatherData net latitude longitude t) = t ++ evs
        /\ within_budget (Forecast latitude longitude) evs)
  /\ (forall latitude longitude t, exists evs,
        snd (reverseGeocode net latitude longitude t) = t ++ evs
        /\ within_budget (Reverse latitude longitude) evs).
Proof.
  split; [|split; [|split]].
  - intros cityName t. rewrite getCoordinates_trace.
    destruct (validateCityName cityName) as [validated|e] eqn:Hval.
    + apply GeocodingProperties.validateCityName_Ok_inv in Hval
        as (s & -> & -> & _).
      unfold encodeURIComponent. destruct (well_formed (trim s)).
      * apply fetchWithRetry_within_budget.
      * exists []. rewrite app_nil_r. split; [reflexivity | apply within_budget_nil].
    + exists []. rewrite app_nil_r. split; [reflexivity|].
      destruct cityName; try reflexivity. apply within_budget_nil.
  - intros query t. rewrite searchCities_trace.
    destruct (validateCityName query) as [validated|e] eqn:Hval.
    + apply GeocodingProperties.validateCityName_Ok_inv in Hval
        as (s & -> & -> & _).
      cbn [encodeURIComponent_val]. unfold encodeURIComponent.
      destruct (well_formed s).
      * apply fetchWithRetry_within_budget.
      * exists []. rewrite app_nil_r. split; [reflexivity | apply within_budget_nil].
    + exists []. rewrite app_nil_r. split; [reflexivity|].
      destruct query; try reflexivity. apply within_budget_nil.
  - intros x y t. destruct (getWeatherData_trace x y t) as [-> | ->].
    + exists []. rewrite app_nil_r. split; [reflexivity | apply within_budget_nil].
    + apply fetchWithRetry_within_budget.
  - intros x y t. rewrite reverseGeocode_trace. apply fetchWithRetry_within_budget.
Qed.

End Budget.

End ServiceBudget.

(** ** What the service makes of the network's answers *)

Module ServiceOutcomes.
Local Abbreviation error_name := name (only parsing).
Import NetworkUtils WeatherService MonadLemmas FetcherProperties RetryProperties.
Import ForecastProperties GeocodingProperties.

(** Three failed attempts: the call throws what the last one threw, after
    the two waits. *)
Lemma fetchWithRetry_down net (req : request) (t : trace) (e : error) :
  (forall j, (j < 3)%nat -> succeeds net (fetch_count t + j) req = false) ->
  attempt_result net (fetch_count t + 2) req = Throw e ->
  fetchWithRetry net req 3 t = (Throw (final_error e), t ++ schedule req 1 2).
Proof.
  intros Hfail He. unfold fetchWithRetry.
  destruct (retry_loop_result net req 3 (Z.to_nat 3) 1 t)
    as (retries & Hbound & _ & Hrun & Hlast); [lia|lia|].
  assert (Hthrow : exists e', attempt_result net (fetch_count t + retries) req = Throw e').
  { specialize (Hfail retries ltac:(lia)). unfold succeeds in Hfail.
    unfold attempt_result.
    destruct (net (fetch_count t + retries)%nat req) as [r|e']; [|eauto].
    rewrite Hfail. eauto. }
  specialize (Hlast Hthrow).
  assert (retries = 2%nat) as -> by lia.
  now rewrite Hrun, He.
Qed.

Lemma valid_coordinates_pass (x y : number) :
  valid_latitude x && valid_longitude y = true ->
  not_number x = false -> not_number y = false ->
  not_number x || not_number y || isNaN x || isNaN y = false
  /\ num_lt x (of_Z (-90)) || num_gt x (of_Z 90) = false
  /\ num_lt y (of_Z (-180)) || num_gt y (of_Z 180) = false.
Proof.
  intros [Hx Hy]%andb_true_iff Hzx Hzy.
  assert (Hnx : isNaN x = false) by now destruct x.
  assert (Hny : isNaN y = false) by now destruct y.
  rewrite Hzx, Hzy, Hnx, Hny, (valid_latitude_checks x Hnx),
    (valid_longitude_checks y Hny), Hx, Hy.
  repeat split.
Qed.

Section Outcomes.
Variable net : nat -> request -> outcome.
Variable parseFloat : jsval -> number.

(** Past the validation of the coordinates, [getWeatherData] is the fetch
    followed by the reading of the payload. *)
Lemma getWeatherData_valid_run (x y : number) (t : trace) :
  valid_latitude x && valid_longitude y = true ->
  not_number x = false -> not_number y = false ->
  getWeatherData net x y t
  = try_catch
      (bind (fetchWithRetry net (Forecast x y) 3)
         (fun response =>
            bind (response_json response)
              (fun data =>
                 bind (lift (get_prop data "current"))
                   (fun current =>
                      bind (lift (get_prop data "daily"))
                        (fun daily =>
                           bind (lift (get_prop data "hourly"))
                             (fun hourly =>
                                if negb (truthy current) || negb (truthy daily)
                                   || negb (truthy hourly)
                                then throw (new_Error msg_invalid_format)
                                else ret data))))))
      (fun error =>
         if includes (message error) (lit "Invalid coordinates")
            || includes (message error) (lit "Invalid latitude")
            || includes (message error) (lit "Invalid longitude")
         then throw error
         else throw (new_Error (lit "Unable to fetch weather data: " ++ message error)))
      t.
Proof.
  intros Hv Hzx Hzy.
  destruct (valid_coordinates_pass x y Hv Hzx Hzy) as (H1 & H2 & H3).
  unfold getWeatherData. now rewrite H1, H2, H3.
Qed.

(** What a returned payload has gone through. *)
Lemma getWeatherData_Ok_inv (x y : number) (t t' : trace) (data : jsval) :
  getWeatherData net x y t = (Ok data, t') ->
  valid_latitude x && valid_longitude y = true
  /\ not_number x = false /\ not_number y = false
  /\ (exists resp, ok resp = true /\ json resp = Ok data)
  /\ truthy data = true
  /\ exists current daily hourly,
       get_prop data "current" = Ok current /\ truthy current = true
       /\ get_prop data "daily" = Ok daily /\ truthy daily = true
       /\ get_prop data "hourly" = Ok hourly /\ truthy hourly = true.
Proof.
  intros H.
  destruct (valid_latitude x && valid_longitude y) eqn:Hv.
  2:{ destruct (getWeatherData_refuses net x y t Hv) as (msg & _ & Hr).
      rewrite Hr in H. discriminate. }
  assert (Hz : not_number x || not_number y = false).
  { destruct (not_number x || not_number y) eqn:Hz; [|reflexivity].
    unfold getWeatherData, try_catch in H. rewrite Hz in H. discriminate. }
  apply orb_false_iff in Hz as [Hzx Hzy].
  split; [reflexivity|]. split; [exact Hzx|]. split; [exact Hzy|].
  rewrite (getWeatherData_valid_run x y t Hv Hzx Hzy) in H.
  apply try_catch_throwing_inv in H.
  2:{ intros e t1. destruct (_ || _); eexists; reflexivity. }
  apply bind_Ok_inv in H as (response & t1 & Hfetch & H).
  apply bind_Ok_inv in H as (data' & t2 & Hjson & H).
  destruct response as [resp|]; [|discriminate].
  apply lift_Ok_inv in Hjson as [Hjson ->].
  apply bind_Ok_inv in H as (current & t2 & [Hc ->]%lift_Ok_inv & H).
  apply bind_Ok_inv in H as (daily & t2 & [Hd ->]%lift_Ok_inv & H).
  apply bind_Ok_inv in H as (hourly & t2 & [Hh ->]%lift_Ok_inv & H).
  destruct (truthy current) eqn:Htc; [|discriminate].
  destruct (truthy daily) eqn:Htd; [|discriminate].
  destruct (truthy hourly) eqn:Hth; [|discriminate].
  injection H as <- <-.
  split.
  - exists resp. split; [|exact Hjson].
    unfold fetchWithRetry in Hfetch.
    destruct (retry_loop_result net (Forecast x y) 3 (Z.to_nat 3) 1 t)
      as (retries & _ & _ & Hrun & _); [lia|lia|].
    rewrite Hrun in Hfetch. unfold attempt_result in Hfetch.
    destruct (net (fetch_count t + retries)%nat (Forecast x y)) as [r0|e0]; [|discriminate].
    destruct (ok r0) eqn:Hok; [|discriminate]. now injection Hfetch as <- _.
  - split.
    + destruct data' as [| | | | | |]; try discriminate; try reflexivity;
        cbn in Hc; injection Hc as <-; discriminate.
    + exists current, daily, hourly. repeat split; assumption.
Qed.


(** X7. With coordinates that pass the validation and a response whose body
    is an object, [getWeatherData] returns the body unchanged exactly when
    its [current], [daily] and [hourly] blocks are all truthy; when one is
    missing it throws the format error, wrapped in the message that the
    weather data could not be fetched. *)
Theorem getWeatherData_payload_shape
    (x y : number) (t t' : trace) (resp : response) (fields : list (jsstring * jsval)) :
  valid_latitude x && valid_longitude y = true ->
  not_number x = false -> not_number y = false ->
  fetchWithRetry net (Forecast x y) 3 t = (Ok (Some resp), t') ->
  json resp = Ok (VObj fields) ->
  getWeatherData net x y t
  = if truthy (assoc (lit "current") fields)
       && truthy (assoc (lit "daily") fields)
       && truthy (assoc (lit "hourly") fields)
    then (Ok (VObj fields), t')
    else (Throw (new_Error (lit "Unable to fetch weather data: " ++ msg_invalid_format)),
          t').
Proof.
  intros Hv Hzx Hzy Hfetch Hjson.
  rewrite (getWeatherData_valid_run x y t Hv Hzx Hzy).
  unfold try_catch, bind at 1. rewrite Hfetch.
  unfold bind. cbn [response_json lift]. rewrite Hjson. cbn [get_prop].
  destruct (truthy (assoc (lit "current") fields)),
    (truthy (assoc (lit "daily") fields)),
    (truthy (assoc (lit "hourly") fields)); reflexivity.
Qed.

(** The message behind the prefix, by the kind of the last fault. *)
Lemma final_error_reason (e : error) :
  error_name e = lit "TypeError" \/ error_name e = lit "AbortError" ->
  final_error e
  = new_Error (if decide (error_name e = lit "TypeError") then msg_connection
               else msg_timeout).
Proof.
  intros Hname. unfold final_error. destruct Hname as [Hn | Hn]; rewrite Hn; reflexivity.
Qed.

Lemma getWeatherData_down (x y : number) (t : trace) (e : error) :
  (forall j, (j < 3)%nat -> succeeds net (fetch_count t + j) (Forecast x y) = false) ->
  attempt_result net (fetch_count t + 2) (Forecast x y) = Throw e ->
  error_name e = lit "TypeError" \/ error_name e = lit "AbortError" ->
  valid_latitude x && valid_longitude y = true ->
  not_number x = false -> not_number y = false ->
  getWeatherData net x y t
  = (Throw (new_Error (lit "Unable to fetch weather data: "
                       ++ if decide (error_name e = lit "TypeError") then msg_connection
                          else msg_timeout)),
     t ++ schedule (Forecast x y) 1 2).
Proof.
  intros Hfail He Hname Hv Hzx Hzy.
  pose proof (fetchWithRetry_down net _ t e Hfail He) as Hdown.
  rewrite (final_error_reason e Hname) in Hdown.
  rewrite (getWeatherData_valid_run x y t Hv Hzx Hzy).
  unfold try_catch, bind at 1. rewrite Hdown.
  destruct (decide (error_name e = lit "TypeError")); reflexivity.
Qed.

Lemma getCoordinates_down (cityName : jsval) (validated : jsstring) (t : trace) (e : error) :
  (forall j, (j < 3)%nat ->
     succeeds net (fetch_count t + j) (Geocoding validated 1) = false) ->
  attempt_result net (fetch_count t + 2) (Geocoding validated 1) = Throw e ->
  error_name e = lit "TypeError" \/ error_name e = lit "AbortError" ->
  validateCityName cityName = Ok validated ->
  well_formed validated = true ->
  getCoordinates net parseFloat cityName t
  = (Throw (new_Error (lit "Unable to find location: "
                       ++ if decide (error_name e = lit "TypeError") then msg_connection
                          else msg_timeout)),
     t ++ schedule (Geocoding validated 1) 1 2).
Proof.
  intros Hfail He Hname Hval Hwf.
  pose proof (fetchWithRetry_down net _ t e Hfail He) as Hdown.
  rewrite (final_error_reason e Hname) in Hdown.
  unfold getCoordinates, try_catch, bind at 1. rewrite Hval. cbn [lift].
  unfold bind at 1, encodeURIComponent. rewrite Hwf. cbn [lift].
  unfold bind at 1. rewrite Hdown.
  destruct (decide (error_name e = lit "TypeError")); reflexivity.
Qed.

(** X8. When the three fetches of a call fail and the last one failed at
    the connection or was aborted by the timeout, [getWeatherData] (on
    coordinates that pass its validation) throws the connection or the
    timeout message behind the prefix ["Unable to fetch weather data: "],
    and [getCoordinates] (on a name that passes the validator) throws it
    behind the prefix ["Unable to find location: "]; either has then made
    three fetches and waited 1000 and 2000 ms. *)
Theorem network_failure_messages (req : request) (t : trace) (e : error) :
  (forall j, (j < 3)%nat -> succeeds net (fetch_count t + j) req = false) ->
  attempt_result net (fetch_count t + 2) req = Throw e ->
  error_name e = lit "TypeError" \/ error_name e = lit "AbortError" ->
  let reason := if decide (error_name e = lit "TypeError") then msg_connection else msg_timeout in
  (forall x y,
     req = Forecast x y ->
     valid_latitude x && valid_longitude y = true ->
     not_number x = false -> not_number y = false ->
     getWeatherData net x y t
     = (Throw (new_Error (lit "Unable to fetch weather data: " ++ reason)),
        t ++ schedule req 1 2))
  /\ (forall cityName validated,
        validateCityName cityName = Ok validated ->
        well_formed validated = true ->
        req = Geocoding validated 1 ->
        getCoordinates net parseFloat cityName t
        = (Throw (new_Error (lit "Unable to find location: " ++ reason)),
           t ++ schedule req 1 2)).
Proof.
  intros Hfail He Hname reason. split.
  - intros x y -> Hv Hzx Hzy. now apply getWeatherData_down.
  - intros cityName validated Hval Hwf ->. now apply getCoordinates_down.
Qed.

(** A refusal of the validator, seen through [getCoordinates]. *)
Lemma getCoordinates_validation_throw (cityName : jsval) (e : error) (t : trace) :
  validateCityName cityName = Throw e ->
  getCoordinates net parseFloat cityName t
  = (Throw (new_Error (lit "Unable to find location: " ++ message e)), t).
Proof.
  intros Hval. unfold getCoordinates, try_catch, bind at 1. rewrite Hval. cbn [lift].
  assert (He : e = new_Error msg_required \/ e = new_Error msg_empty
               \/ e = new_Error msg_too_short \/ e = new_Error msg_too_long
               \/ e = new_Error msg_invalid_chars).
  { unfold validateCityName in Hval.
    destruct cityName as [| | | |s| |]; try (injection Hval as <-; tauto).
    destruct s as [|c s]; [injection Hval as <-; tauto|].
    destruct (_ =? _)%nat; [injection Hval as <-; tauto|].
    destruct (_ <? _)%nat; [injection Hval as <-; tauto|].
    destruct (_ <? _)%nat; [injection Hval as <-; tauto|].
    destruct (dangerousChars_test _); [injection Hval as <-; tauto | discriminate]. }
  destruct He as [-> | [-> | [-> | [-> | ->]]]]; reflexivity.
Qed.

(** X9. A city name that the validator refuses makes [getCoordinates] throw
    the validator's message behind the prefix ["Unable to find location: "],
    without any network call. *)
Theorem getCoordinates_invalid_name (cityName : jsval) (e : error) (t : trace) :
  validateCityName cityName = Throw e ->
  getCoordinates net parseFloat cityName t
  = (Throw (new_Error (lit "Unable to find location: " ++ message e)), t).
Proof. apply getCoordinates_validation_throw. Qed.

End Outcomes.


(** A payload without its [hourly] block. *)
Lemma getWeatherData_payload_shape_witness :
  let resp := forecast_response (VObj []) (VObj []) VUndef in
  getWeatherData (always resp) (Fin (407 # 10)) (Fin (-74)) []
  = (Throw (new_Error (lit "Unable to fetch weather data: " ++ msg_invalid_format)),
     [EvFetch (Forecast (Fin (407 # 10)) (Fin (-74)))]).
Proof.
  intros resp.
  exact (getWeatherData_payload_shape (always resp) (Fin (407 # 10)) (Fin (-74)) []
           [EvFetch (Forecast (Fin (407 # 10)) (Fin (-74)))] resp _
           eq_refl eq_refl eq_refl eq_refl eq_refl).
Defined.

(** A network that is down, and one on which every request times out. *)
Lemma network_failure_messages_witness :
  getCoordinates offline parseFloat_number (VStr (lit "Paris")) []
  = (Throw (new_Error (lit "Unable to find location: " ++ msg_connection)),
     schedule (Geocoding (lit "Paris") 1) 1 2)
  /\ getWeatherData stalled (Fin (4885 # 100)) (Fin (235 # 100)) []
     = (Throw (new_Error (lit "Unable to fetch weather data: " ++ msg_timeout)),
        schedule (Forecast (Fin (4885 # 100)) (Fin (235 # 100))) 1 2).
Proof.
  split.
  - refine (proj2 (network_failure_messages offline parseFloat_number
                     (Geocoding (lit "Paris") 1) []
                     (new_TypeError (lit "Failed to fetch"))
                     (fun _ _ => eq_refl) eq_refl (or_introl eq_refl))
              (VStr (lit "Paris")) (lit "Paris") eq_refl eq_refl eq_refl).
  - refine (proj1 (network_failure_messages stalled parseFloat_number
                     (Forecast (Fin (4885 # 100)) (Fin (235 # 100))) []
                     (Error_ (lit "AbortError") (lit "The operation was aborted"))
                     (fun _ _ => eq_refl) eq_refl (or_intror eq_refl))
              _ _ eq_refl eq_refl eq_refl eq_refl).
Defined.

(** A name of one letter. *)
Lemma getCoordinates_invalid_name_witness :
  getCoordinates offline parseFloat_number (VStr (lit "P")) []
  = (Throw (new_Error (lit "Unable to find location: " ++ msg_too_short)), []).
Proof.
  exact (getCoordinates_invalid_name offline parseFloat_number (VStr (lit "P"))
           (new_Error msg_too_short) [] eq_refl).
Defined.

End ServiceOutcomes.

(** ** Reverse geocoding and suggestions *)

Module BestEffort.
Import NetworkUtils WeatherService MonadLemmas.

Lemma js_or_assoc (a b c : jsval) : js_or (js_or a b) c = js_or a (js_or b c).
Proof.
  unfold js_or. destruct (truthy a) eqn:Ha; [now rewrite Ha|reflexivity].
Qed.

Lemma first_truthy_cons (a : jsval) (l : list jsval) (fallback : jsval) :
  first_truthy (a :: l) fallback = js_or a (first_truthy l fallback).
Proof. reflexivity. Qed.

Lemma js_or_truthy (a b : jsval) : truthy b = true -> truthy (js_or a b) = true.
Proof. intros Hb. unfold js_or. destruct (truthy a) eqn:Ha; assumption. Qed.

Section BestEffort.
Variable net : nat -> request -> outcome.

(** The record [reverseGeocode] answers with. *)
Lemma reverseGeocode_answers (x y : number) (t : trace) :
  exists loc t',
    reverseGeocode net x y t = (Ok loc, t')
    /\ latitude loc = x /\ longitude loc = y
    /\ truthy (name loc) = true /\ truthy (country loc) = true.
Proof.
  unfold reverseGeocode, try_catch, bind at 1.
  destruct (fetchWithRetry net (Reverse x y) 3 t) as [[response|e] t1];
    [|eexists _, _; repeat split].
  unfold bind at 1.
  destruct (response_json response t1) as [[data|e] t2] eqn:Hjson;
    [|eexists _, _; repeat split].
  unfold bind at 1. cbn [lift].
  destruct (if truthy data then get_prop data "address" else Ok data)
    as [found|e]; [|eexists _, _; repeat split].
  destruct (truthy found) eqn:Hfound; [|eexists _, _; repeat split].
  assert (Hget : forall key, exists v, get_prop found key = Ok v).
  { intros key. destruct found; try discriminate; cbn; try (eexists; reflexivity);
      destruct (key =? "length")%string; eexists; reflexivity. }
  unfold bind.
  destruct (Hget "city") as (v1 & ->), (Hget "town") as (v2 & ->),
    (Hget "village") as (v3 & ->), (Hget "municipality") as (v4 & ->),
    (Hget "hamlet") as (v5 & ->), (Hget "state") as (v6 & ->),
    (Hget "region") as (v7 & ->), (Hget "province") as (v8 & ->),
    (Hget "county") as (v9 & ->), (Hget "country") as (v10 & ->).
  cbn [lift ret]. eexists _, _. split; [reflexivity|].
  cbn [latitude longitude name country].
  repeat split; apply js_or_truthy; reflexivity.
Qed.

(** X10. [reverseGeocode] always returns, whatever the network does.  The
    record carries the coordinates exactly as they were passed, unchecked,
    and its name and its country are never falsy. *)
Theorem reverseGeocode_always_answers (x y : number) (t : trace) :
  exists loc t',
    reverseGeocode net x y t = (Ok loc, t')
    /\ latitude loc = x /\ longitude loc = y
    /\ truthy (name loc) = true /\ truthy (country loc) = true.
Proof. apply reverseGeocode_answers. Qed.

(** X11. On a response with an address, [reverseGeocode] names the place
    after the first truthy field among city, town, village, municipality
    and hamlet, or ["Unknown City"]; the region after the first among
    state, region, province and county, or the empty string; and the
    country after its country field, or ["Unknown Country"]. *)
Theorem reverseGeocode_address
    (x y : number) (t t' : trace) (resp : response)
    (fields address : list (jsstring * jsval)) :
  fetchWithRetry net (Reverse x y) 3 t = (Ok (Some resp), t') ->
  json resp = Ok (VObj fields) ->
  assoc (lit "address") fields = VObj address ->
  let field key := assoc (lit key) address in
  reverseGeocode net x y t
  = (Ok {| name := first_truthy [field "city"; field "town"; field "village";
                                 field "municipality"; field "hamlet"]
                     (VStr (lit "Unknown City"));
           country := first_truthy [field "country"] (VStr (lit "Unknown Country"));
           admin1 := first_truthy [field "state"; field "region"; field "province";
                                   field "county"] (VStr (lit ""));
           latitude := x;
           longitude := y |}, t').
Proof.
  intros Hfetch Hjson Haddr field.
  unfold reverseGeocode, try_catch, bind at 1. rewrite Hfetch.
  unfold bind at 1. cbn [response_json lift]. rewrite Hjson.
  unfold bind at 1. cbn [truthy lift get_prop]. rewrite Haddr. cbn [truthy].
  unfold bind. cbn [lift get_prop ret].
  rewrite !first_truthy_cons. cbn [first_truthy]. rewrite !js_or_assoc.
  reflexivity.
Qed.

(** X12. Whatever goes wrong, [reverseGeocode] answers with the same
    stand-in: ["Your Location"] in ["Current Location"], with an empty
    region and the coordinates as passed.  This is so when the fetch fails
    after its retries, when the body is not JSON, when the body is falsy,
    and when it has no address. *)
Theorem reverseGeocode_fallback (x y : number) (t t' : trace)
    (r : result (option response)) :
  fetchWithRetry net (Reverse x y) 3 t = (r, t') ->
  let fallback := {| name := VStr (lit "Your Location");
                     country := VStr (lit "Current Location");
                     admin1 := VStr (lit "");
                     latitude := x;
                     longitude := y |} in
  (forall e, r = Throw e -> reverseGeocode net x y t = (Ok fallback, t'))
  /\ (forall resp e, r = Ok (Some resp) -> json resp = Throw e ->
        reverseGeocode net x y t = (Ok fallback, t'))
  /\ (forall resp data, r = Ok (Some resp) -> json resp = Ok data ->
        truthy data = false ->
        reverseGeocode net x y t = (Ok fallback, t'))
  /\ (forall resp data address, r = Ok (Some resp) -> json resp = Ok data ->
        get_prop data "address" = Ok address -> truthy address = false ->
        reverseGeocode net x y t = (Ok fallback, t')).
Proof.
  intros Hfetch fallback.
  repeat split.
  - intros e ->. unfold reverseGeocode, try_catch, bind at 1. now rewrite Hfetch.
  - intros resp e -> He. unfold reverseGeocode, try_catch, bind at 1.
    rewrite Hfetch. unfold bind at 1. cbn [response_json lift]. now rewrite He.
  - intros resp data -> Hd Hf. unfold reverseGeocode, try_catch, bind at 1.
    rewrite Hfetch. unfold bind at 1. cbn [response_json lift]. rewrite Hd.
    unfold bind at 1. cbn [lift]. now rewrite Hf, Hf.
  - intros resp data address -> Hd Ha Hf. unfold reverseGeocode, try_catch, bind at 1.
    rewrite Hfetch. unfold bind at 1. cbn [response_json lift]. rewrite Hd.
    unfold bind at 1. cbn [lift].
    destruct (truthy data) eqn:Htd.
    + now rewrite Ha, Hf.
    + now rewrite Htd.
Qed.


End BestEffort.

(** A response that knows only the village and the county. *)
Lemma reverseGeocode_address_witness :
  let resp := reverse_response [(lit "village", VStr (lit "Grindelwald"));
                                (lit "county", VStr (lit "Bern"));
                                (lit "country", VStr (lit "Switzerland"))] in
  reverseGeocode (always resp) (Fin (4662 # 100)) (Fin (804 # 100)) []
  = (Ok {| name := VStr (lit "Grindelwald");
           country := VStr (lit "Switzerland");
           admin1 := VStr (lit "Bern");
           latitude := Fin (4662 # 100);
           longitude := Fin (804 # 100) |},
     [EvFetch (Reverse (Fin (4662 # 100)) (Fin (804 # 100)))]).
Proof.
  intros resp.
  exact (reverseGeocode_address (always resp) (Fin (4662 # 100)) (Fin (804 # 100)) []
           [EvFetch (Reverse (Fin (4662 # 100)) (Fin (804 # 100)))] resp _ _
           eq_refl eq_refl eq_refl).
Defined.

(** A network that is down. *)
Lemma reverseGeocode_fallback_witness :
  reverseGeocode offline (Fin (4662 # 100)) (Fin (804 # 100)) []
  = (Ok {| name := VStr (lit "Your Location");
           country := VStr (lit "Current Location");
           admin1 := VStr (lit "");
           latitude := Fin (4662 # 100);
           longitude := Fin (804 # 100) |},
     schedule (Reverse (Fin (4662 # 100)) (Fin (804 # 100))) 1 2).
Proof.
  refine (proj1 (reverseGeocode_fallback offline (Fin (4662 # 100)) (Fin (804 # 100)) []
                   (schedule (Reverse (Fin (4662 # 100)) (Fin (804 # 100))) 1 2)
                   (Throw (new_Error msg_connection)) eq_refl)
            _ eq_refl).
Defined.

End BestEffort.

(** ** The view-model of the current conditions *)

Module ViewModelProperties.
Import WeatherDataProcessor BuilderProperties TableProperties.

(** X14. The two calendar tables agree: for every date, whatever the host
    calendar answers, the short name of the day is defined exactly when the
    long one is, and is its first three letters. *)
Theorem day_names_agree (getDay : option jsstring -> number) (date : option jsstring) :
  (getDayName getDay date = None <-> getShortDayName getDay date = None)
  /\ (forall long, getDayName getDay date = Some long ->
        getShortDayName getDay date = Some (String.substring 0 3 long))
  /\ (is_Some (getDayName getDay date) <->
        exists d, (d < 7)%nat /\ number_index (getDay date) = Some d).
Proof.
  unfold getDayName, getShortDayName, array_get.
  destruct (number_index (getDay date)) as [d|].
  - destruct d as [|[|[|[|[|[|[|d]]]]]]]; cbn;
      (split; [split; intros H; (discriminate || reflexivity)|]);
      (split; [intros long H; (discriminate || (injection H as <-; reflexivity))|]);
      (split; [intros H; (eexists; split; [|reflexivity]; lia)
                          || (destruct H as [? H]; discriminate)
              | intros (d' & Hd & [= <-]); (eexists; reflexivity) || lia]).
  - split; [split; reflexivity|]. split; [discriminate|].
    split; [intros [? H]; discriminate | intros (d' & _ & H); discriminate].
Qed.






Section Now.
Variable now_hours : Z.
Variable now_time : jsstring.
Variable toLocaleTimeString : option jsstring -> jsstring.
Variable getHours : option jsstring -> number.
Variable ToString : jsval -> jsstring.

Abbreviation build := (processCurrentWeather now_hours now_time toLocaleTimeString
                         getHours ToString).

(** X16. The optional readings.  A pressure that is missing, [NaN] or zero
    is reported as [null], any other as its nearest integer; a visibility
    that is missing, [NaN] or zero is reported as [null], any other as the
    nearest integer to a thousandth of it, so that a visibility below 500
    metres is reported as 0 kilometres. *)
Theorem processCurrentWeather_optional_readings
    (data : Payload.t) (locationInfo : WeatherService.location_record) :
  let current := Payload.current data in
  let shown := CurrentWeather.current (build data locationInfo) in
  (CurrentConditions.pressure shown = None <->
     match Current.pressure_msl current with
     | Some p => not_number p = true
     | None => True
     end)
  /\ (forall q, Current.pressure_msl current = Some (Fin q) -> ~ (q == 0)%Q ->
        exists n, CurrentConditions.pressure shown = Some n /\ nearest q n)
  /\ (CurrentConditions.visibility shown = None <->
        match Current.visibility current with
        | Some v => not_number v = true
        | None => True
        end)
  /\ (forall q, Current.visibility current = Some (Fin q) -> ~ (q == 0)%Q ->
        exists n, CurrentConditions.visibility shown = Some n
                  /\ nearest (q / inject_Z 1000) n
                  /\ ((0 < q)%Q -> (q < 500)%Q -> n = of_Z 0)).
Proof.
  intros current shown. subst shown.
  cbn [processCurrentWeather CurrentWeather.current CurrentConditions.pressure
         CurrentConditions.visibility]. fold current.
  assert (Hnz : forall q, ~ (q == 0)%Q -> not_number (Fin q) = false).
  { intros q Hq. cbn. unfold Qeqb0. destruct (Z.eqb_spec (Qnum q) 0) as [H|]; [|reflexivity].
    exfalso. apply Hq. unfold Qeq. cbn. lia. }
  split; [|split; [|split]].
  - destruct (Current.pressure_msl current) as [p|]; [|tauto].
    destruct (not_number p); split; (discriminate || reflexivity || auto).
  - intros q -> Hq. rewrite (Hnz q Hq). eexists. split; [reflexivity|].
    apply Math_round_nearest.
  - destruct (Current.visibility current) as [v|]; [|tauto].
    destruct (not_number v); split; (discriminate || reflexivity || auto).
  - intros q -> Hq. rewrite (Hnz q Hq). eexists. split; [reflexivity|].
    split; [apply Math_round_nearest|].
    intros Hpos Hlt. cbn [div_const Math_round]. unfold of_Z. do 2 f_equal.
    assert (Hdiv : (q / inject_Z 1000 == q * (1 # 1000))%Q) by (unfold Qdiv; reflexivity).
    assert (Hx0 : (0 < q / inject_Z 1000)%Q) by (rewrite Hdiv; lra).
    assert (Hx1 : (q / inject_Z 1000 < 1 # 2)%Q) by (rewrite Hdiv; lra).
    pose proof (Qfloor_le (q / inject_Z 1000 + (1 # 2))) as H1.
    pose proof (Qlt_floor (q / inject_Z 1000 + (1 # 2))) as H2.
    rewrite inject_Z_plus in H2. change (inject_Z 1) with 1%Q in H2.
    set (x := (q / inject_Z 1000)%Q) in *.
    assert (Ha : (inject_Z (Qfloor (x + (1 # 2))) < inject_Z 1)%Q)
      by (change (inject_Z 1) with 1%Q; lra).
    assert (Hb : (inject_Z (-1) < inject_Z (Qfloor (x + (1 # 2))))%Q)
      by (change (inject_Z (-1)) with (-1)%Q; lra).
    rewrite <- Zlt_Qlt in Ha, Hb. lia.
Qed.

(** X17. The hourly window of the current conditions starts at the hour the
    clock shows.  When the series reaches twelve hours past that hour, as
    the five days the request asks for always do, the window has exactly
    twelve entries, the one at position [k] built at index
    [now_hours + k]. *)
Theorem processCurrentWeather_hourly_window
    (data : Payload.t) (locationInfo : WeatherService.location_record) :
  0 <= now_hours ->
  now_hours + 12 <= Z.of_nat (length (Hourly.time (Payload.hourly data))) ->
  let window := CurrentWeather.hourly (build data locationInfo) in
  length window = 12%nat
  /\ forall k, (k < 12)%nat ->
       window !! k
       = Some (hourly_entry toLocaleTimeString getHours (Payload.hourly data)
                 (now_hours + Z.of_nat k))
       /\ is_Some (Hourly.time (Payload.hourly data) !! Z.to_nat (now_hours + Z.of_nat k)).
Proof.
  intros H0 Hlen window. subst window.
  cbn [processCurrentWeather CurrentWeather.hourly].
  rewrite processHourlyForecast_eq.
  replace (Z.min 12 (Z.max 0 (Z.of_nat (length (Hourly.time (Payload.hourly data)))
                               - now_hours))) with 12 by lia.
  split; [now rewrite length_map, length_seqZ|].
  intros k Hk. split.
  - apply list_lookup_fmap_Some. exists (now_hours + Z.of_nat k).
    split; [reflexivity|]. apply lookup_seqZ. lia.
  - apply lookup_lt_is_Some. lia.
Qed.

End Now.

(** On a Saturday. *)
Lemma day_names_agree_witness :
  getDayName saturday (Some (lit "2024-06-01")) = Some "Saturday"%string
  /\ getShortDayName saturday (Some (lit "2024-06-01")) = Some "Sat"%string.
Proof.
  assert (H : getDayName saturday (Some (lit "2024-06-01")) = Some "Saturday"%string)
    by reflexivity.
  split; [exact H|].
  exact (proj1 (proj2 (day_names_agree saturday (Some (lit "2024-06-01")))) _ H).
Defined.

(** A pressure of 1013.15 hPa and a visibility of 300 m, at 23 h on the
    first of five days. *)
Lemma processCurrentWeather_optional_readings_witness :
  let current := Current.Make (Some (Fin (145 # 2))) (Some (Fin 40)) (Some (Fin 70))
                   (Some 3) (Some (Fin 12)) (Some (Fin 270))
                   (Some (Fin (20263 # 20))) (Some (Fin 300)) in
  let daily := Daily.Make [] [] [] [] [] [] [] [] in
  let hourly := Hourly.Make (replicate 120 (lit "2024-06-01T00:00")) [] [] in
  let paris := WeatherService.LocationRecord (Fin (4885 # 100)) (Fin (235 # 100))
                 (VStr (lit "Paris")) (VStr (lit "France")) VNull in
  let shown := CurrentWeather.current
                 (processCurrentWeather 23 (lit "23:05") sample_time sample_hours
                    (fun _ => []) (Payload.Make current daily hourly) paris) in
  (exists n, CurrentConditions.pressure shown = Some n /\ nearest (20263 # 20) n)
  /\ exists n, CurrentConditions.visibility shown = Some n /\ n = of_Z 0.
Proof.
  intros current daily hourly paris shown.
  destruct (processCurrentWeather_optional_readings 23 (lit "23:05") sample_time
              sample_hours (fun _ => []) (Payload.Make current daily hourly) paris)
    as (_ & Hp & _ & Hv).
  split.
  - exact (Hp (20263 # 20) eq_refl ltac:(discriminate)).
  - destruct (Hv 300%Q eq_refl ltac:(discriminate)) as (n & Hn & _ & H0).
    exists n. split; [exact Hn|]. apply H0; reflexivity.
Defined.

(** At 23 h, with the 120 hourly values of five days. *)
Lemma processCurrentWeather_hourly_window_witness :
  let current := Current.Make None None None None None None None None in
  let daily := Daily.Make [] [] [] [] [] [] [] [] in
  let hourly := Hourly.Make (replicate 120 (lit "2024-06-01T00:00")) [] [] in
  let paris := WeatherService.LocationRecord (Fin (4885 # 100)) (Fin (235 # 100))
                 (VStr (lit "Paris")) (VStr (lit "France")) VNull in
  length (CurrentWeather.hourly
            (processCurrentWeather 23 (lit "23:05") sample_time sample_hours
               (fun _ => []) (Payload.Make current daily hourly) paris)) = 12%nat.
Proof.
  intros current daily hourly paris.
  refine (proj1 (processCurrentWeather_hourly_window 23 (lit "23:05") sample_time
                   sample_hours (fun _ => []) (Payload.Make current daily hourly) paris
                   _ _)).
  - discriminate.
  - cbn. discriminate.
Defined.

End ViewModelProperties.

(** ** The controller *)

Module ControllerProperties.
Local Abbreviation error_name := name (only parsing).
Import NetworkUtils WeatherService WeatherWidget MonadLemmas.
Import GeocodingProperties ServiceOutcomes ServiceBudget BestEffort.

Lemma showError_run (title message : jsstring) (w : widget) (t : trace) :
  showError title message w t = (Ok tt, after_showError title message w, t).
Proof.
  unfold showError, after_showError, auto_retry, c_bind, c_update.
  destruct (_ || _); reflexivity.
Qed.

Section Controller.
Variable net : nat -> request -> outcome.
Variable parseFloat : jsval -> number.
Variable ToString : jsval -> jsstring.
Variable process_and_render : jsval -> location_record -> bool -> result jsstring.

Abbreviation load := (loadWeather net parseFloat ToString process_and_render).
Abbreviation title_of := (userMessage ToString).

Abbreviation caught := (failed ToString).

(** On a payload that [getWeatherData] has returned, the controller's own
    check passes and the builders run. *)
Lemma show_weather_run (data : jsval) (loc : location_record) (w : widget) (t : trace) :
  truthy data = true ->
  (exists current, get_prop data "current" = Ok current /\ truthy current = true) ->
  (exists daily, get_prop data "daily" = Ok daily /\ truthy daily = true) ->
  show_weather process_and_render data loc w t
  = match process_and_render data loc (showHourlyForecast w) with
    | Ok html => (Ok tt, set_container (Weather html) w, t)
    | Throw e => (Throw e, w, t)
    end.
Proof.
  intros Hd (current & Hc & Htc) (daily & Hdl & Htd).
  unfold show_weather, c_bind, c_lift, c_read, c_update, c_throw, lift.
  rewrite Hd, Hc, Htc. cbn [andb]. rewrite Hdl, Htd. cbn [andb negb orb].
  destruct (process_and_render data loc (showHourlyForecast w)); reflexivity.
Qed.

(** [loadWeather], phase by phase. *)
Lemma loadWeather_cases (cityName : jsval) (w : widget) (t : trace) :
  load cityName w t
  = let w0 := set_container Loading w in
    match getCoordinates net parseFloat cityName t with
    | (Throw e, t1) =>
        match validateCityName cityName with
        | Throw e' => (Ok tt, caught cityName e' w0, t)
        | Ok _ => (Ok tt, caught cityName e w0, t1)
        end
    | (Ok loc, t1) =>
        let w1 := set_currentLocationInfo loc w0 in
        match getWeatherData net (latitude loc) (longitude loc) t1 with
        | (Throw e, t2) => (Ok tt, caught cityName e w1, t2)
        | (Ok data, t2) =>
            match process_and_render data loc (showHourlyForecast w) with
            | Ok html => (Ok tt, set_container (Weather html) w1, t2)
            | Throw e => (Ok tt, caught cityName e w1, t2)
            end
        end
    end.
Proof.
  unfold loadWeather, showLoading. unfold c_bind at 1, c_update at 1, c_try.
  unfold c_bind at 1, c_lift at 1, lift at 1.
  destruct (validateCityName cityName) as [validated|e'] eqn:Hval.
  - rewrite (SuggestionProperties.validated_truthy _ _ Hval). cbn [negb].
    unfold c_bind at 1, c_lift at 1.
    destruct (getCoordinates net parseFloat cityName t) as [[loc|e] t1] eqn:Hgeo.
    + unfold c_bind at 1, c_update at 1. unfold c_bind at 1, c_lift at 1.
      destruct (getWeatherData net (latitude loc) (longitude loc) t1)
        as [[data|e] t2] eqn:Hw.
      * apply getWeatherData_Ok_inv in Hw
          as (_ & _ & _ & _ & Hd & (c & d & h & Hc & Htc & Hdl & Htd & _)).
        rewrite show_weather_run by eauto.
        cbn [showHourlyForecast set_currentLocationInfo set_container].
        destruct (process_and_render data loc (showHourlyForecast w));
          [reflexivity|]. now rewrite showError_run.
      * now rewrite showError_run.
    + now rewrite showError_run.
  - rewrite (getCoordinates_validation_throw net parseFloat cityName e' t Hval).
    now rewrite showError_run.
Qed.

Lemma validator_errors (v : jsval) (e : error) :
  validateCityName v = Throw e ->
  e ∈ [new_Error msg_required; new_Error msg_empty; new_Error msg_too_short;
       new_Error msg_too_long; new_Error msg_invalid_chars].
Proof.
  intros Hval. unfold validateCityName in Hval.
  destruct v as [| | | |s| |]; try (injection Hval as <-; set_solver).
  destruct s as [|c s]; [injection Hval as <-; set_solver|].
  destruct (_ =? _)%nat; [injection Hval as <-; set_solver|].
  destruct (_ <? _)%nat; [injection Hval as <-; set_solver|].
  destruct (_ <? _)%nat; [injection Hval as <-; set_solver|].
  destruct (dangerousChars_test _); [injection Hval as <-; set_solver | discriminate].
Qed.

Lemma after_showError_fields (title msg : jsstring) (w : widget) :
  container (after_showError title msg w) = ErrorBox title msg
  /\ currentLocationInfo (after_showError title msg w) = currentLocationInfo w
  /\ showHourlyForecast (after_showError title msg w) = showHourlyForecast w
  /\ timers (after_showError title msg w)
     = if auto_retry msg then timers w ++ [Timer 5000 ReloadCurrentLocation]
       else timers w.
Proof. unfold after_showError. destruct (auto_retry msg); repeat split. Qed.

(** X18. A city name that the validator refuses never reaches the network
    from [loadWeather]: the container shows the validator's message under
    the title ["Failed to load weather data"] (the title ["Invalid city
    name"] is not the one shown), no retry is armed, and the rest of the
    widget is as it was. *)
Theorem loadWeather_invalid_name (cityName : jsval) (e : error) (w : widget) (t : trace) :
  validateCityName cityName = Throw e ->
  load cityName w t
  = (Ok tt,
     set_container (ErrorBox (lit "Failed to load weather data") (message e)) w,
     t).
Proof.
  intros Hval. rewrite loadWeather_cases.
  rewrite (getCoordinates_validation_throw net parseFloat cityName e t Hval), Hval.
  cbv zeta. f_equal. f_equal.
  pose proof (validator_errors cityName e Hval) as He.
  repeat (apply elem_of_cons in He as [-> | He]; [reflexivity|]).
  now apply elem_of_nil in He.
Qed.

(** Where a load ends. *)
Lemma loadWeather_outcome (cityName : jsval) (w : widget) (t : trace) :
  exists w' t',
    load cityName w t = (Ok tt, w', t')
    /\ container w' <> Loading
    /\ showHourlyForecast w' = showHourlyForecast w
    /\ currentLocationInfo w'
       = match fst (getCoordinates net parseFloat cityName t) with
         | Ok loc => Some loc
         | Throw _ => currentLocationInfo w
         end
    /\ (timers w' = timers w
        \/ timers w' = timers w ++ [Timer 5000 ReloadCurrentLocation])
    /\ (forall html, container w' = Weather html ->
          exists loc t1 data,
            getCoordinates net parseFloat cityName t = (Ok loc, t1)
            /\ getWeatherData net (latitude loc) (longitude loc) t1 = (Ok data, t')
            /\ process_and_render data loc (showHourlyForecast w) = Ok html).
Proof.
  rewrite loadWeather_cases. cbv zeta.
  assert (Hfail : forall e w0,
            container w0 = Loading \/ True ->
            container (caught cityName e w0) <> Loading
            /\ showHourlyForecast (caught cityName e w0) = showHourlyForecast w0
            /\ currentLocationInfo (caught cityName e w0) = currentLocationInfo w0
            /\ (timers (caught cityName e w0) = timers w0
                \/ timers (caught cityName e w0)
                   = timers w0 ++ [Timer 5000 ReloadCurrentLocation])
            /\ forall html, container (caught cityName e w0) <> Weather html).
  { intros e w0 _. unfold failed.
    destruct (after_showError_fields (title_of (message e) cityName) (message e) w0)
      as (Hc & Hl & Hs & Ht).
    rewrite Hc, Hl, Hs, Ht. repeat split; try discriminate.
    destruct (auto_retry (message e)); auto. }
  destruct (getCoordinates net parseFloat cityName t) as [[loc|e] t1] eqn:Hgeo; cbn [fst].
  - destruct (getWeatherData net (latitude loc) (longitude loc) t1)
      as [[data|e] t2] eqn:Hw.
    + destruct (process_and_render data loc (showHourlyForecast w)) as [html|e] eqn:Hr.
      * eexists _, _. split; [reflexivity|]. cbn.
        repeat split; try discriminate; auto.
        intros html' [= <-]. eauto 10.
      * eexists _, _. split; [reflexivity|].
        destruct (Hfail e (set_currentLocationInfo loc (set_container Loading w)))
          as (Hc & Hs & Hl & Ht & Hn); [auto|].
        repeat split; auto. intros html H. now apply Hn in H.
    + eexists _, _. split; [reflexivity|].
      destruct (Hfail e (set_currentLocationInfo loc (set_container Loading w)))
        as (Hc & Hs & Hl & Ht & Hn); [auto|].
      repeat split; auto. intros html H. now apply Hn in H.
  - destruct (validateCityName cityName) as [v|e'].
    + eexists _, _. split; [reflexivity|].
      destruct (Hfail e (set_container Loading w)) as (Hc & Hs & Hl & Ht & Hn); [auto|].
      repeat split; auto. intros html H. now apply Hn in H.
    + eexists _, _. split; [reflexivity|].
      destruct (Hfail e' (set_container Loading w)) as (Hc & Hs & Hl & Ht & Hn); [auto|].
      repeat split; auto. intros html H. now apply Hn in H.
Qed.

(** X19. [loadWeather] always completes, and never leaves the loading
    indicator in the container: it shows the weather or an error.  It
    leaves the forecast mode alone, arms at most the one retry timer, and
    replaces the current location exactly when the geocoding succeeds,
    whether or not the forecast then loads.  The weather is shown only when
    geocoding, forecast and rendering have all succeeded. *)
Theorem loadWeather_settles (cityName : jsval) (w : widget) (t : trace) :
  exists w' t',
    load cityName w t = (Ok tt, w', t')
    /\ container w' <> Loading
    /\ showHourlyForecast w' = showHourlyForecast w
    /\ currentLocationInfo w'
       = match fst (getCoordinates net parseFloat cityName t) with
         | Ok loc => Some loc
         | Throw _ => currentLocationInfo w
         end
    /\ (timers w' = timers w
        \/ timers w' = timers w ++ [Timer 5000 ReloadCurrentLocation])
    /\ (forall html, container w' = Weather html ->
          exists loc t1 data,
            getCoordinates net parseFloat cityName t = (Ok loc, t1)
            /\ getWeatherData net (latitude loc) (longitude loc) t1 = (Ok data, t')
            /\ process_and_render data loc (showHourlyForecast w) = Ok html).
Proof. apply loadWeather_outcome. Qed.

(** X20. When the place has been resolved but the three fetches of the
    forecast fail, at the connection or by the timeout, the container shows
    the wrapped message under the title ["Network connection problem"] in
    both cases, the retry is armed for 5 seconds later, and the place just
    resolved is already the current location. *)
Theorem loadWeather_forecast_down
    (cityName : jsval) (w : widget) (t t1 : trace) (loc : location_record) (e : error) :
  getCoordinates net parseFloat cityName t = (Ok loc, t1) ->
  let req := Forecast (latitude loc) (longitude loc) in
  valid_latitude (latitude loc) && valid_longitude (longitude loc) = true ->
  not_number (latitude loc) = false -> not_number (longitude loc) = false ->
  (forall j, (j < 3)%nat -> succeeds net (fetch_count t1 + j) req = false) ->
  attempt_result net (fetch_count t1 + 2) req = Throw e ->
  error_name e = lit "TypeError" \/ error_name e = lit "AbortError" ->
  load cityName w t
  = (Ok tt,
     {| currentLocationInfo := Some loc;
        showHourlyForecast := showHourlyForecast w;
        container :=
          ErrorBox (lit "Network connection problem")
            (lit "Unable to fetch weather data: "
             ++ if decide (error_name e = lit "TypeError") then msg_connection
                else msg_timeout);
        timers := timers w ++ [Timer 5000 ReloadCurrentLocation] |},
     t1 ++ schedule req 1 2).
Proof.
  intros Hgeo req Hv Hzx Hzy Hfail He Hname.
  rewrite loadWeather_cases, Hgeo. cbv zeta.
  rewrite (getWeatherData_down net _ _ t1 e Hfail He Hname Hv Hzx Hzy).
  destruct (decide (error_name e = lit "TypeError")); reflexivity.
Qed.

(** X21. When the three fetches of the geocoding fail, the container shows
    the wrapped message and the current location stays as it was.  After a
    connection fault the title is the default ["Failed to load weather
    data"] and no retry is armed, the words of the message being
    capitalised otherwise than the ones looked for; after a timeout the
    title is ["Request timed out - please try again"] and the retry is
    armed. *)
Theorem loadWeather_geocoding_down
    (cityName : jsval) (validated : jsstring) (w : widget) (t : trace) (e : error) :
  validateCityName cityName = Ok validated ->
  well_formed validated = true ->
  let req := Geocoding validated 1 in
  (forall j, (j < 3)%nat -> succeeds net (fetch_count t + j) req = false) ->
  attempt_result net (fetch_count t + 2) req = Throw e ->
  (error_name e = lit "TypeError" ->
     load cityName w t
     = (Ok tt,
        set_container
          (ErrorBox (lit "Failed to load weather data")
             (lit "Unable to find location: " ++ msg_connection)) w,
        t ++ schedule req 1 2))
  /\ (error_name e = lit "AbortError" ->
        load cityName w t
        = (Ok tt,
           setTimeout ReloadCurrentLocation 5000
             (set_container
                (ErrorBox (lit "Request timed out - please try again")
                   (lit "Unable to find location: " ++ msg_timeout)) w),
           t ++ schedule req 1 2)).
Proof.
  intros Hval Hwf req Hfail He. split; intros Hname.
  - rewrite loadWeather_cases.
    rewrite (getCoordinates_down net parseFloat cityName validated t e Hfail He
               (or_introl Hname) Hval Hwf), Hval.
    rewrite Hname. reflexivity.
  - rewrite loadWeather_cases.
    rewrite (getCoordinates_down net parseFloat cityName validated t e Hfail He
               (or_intror Hname) Hval Hwf), Hval.
    rewrite Hname. reflexivity.
Qed.


Lemma initWithCoordinates_cases (x y : number) (w : widget) (t : trace) :
  initWithCoordinates net process_and_render x y w t
  = let w0 := set_container Loading w in
    match reverseGeocode net x y t with
    | (Throw e, t1) => (Ok tt, fallen_back w0, t1)
    | (Ok loc, t1) =>
        let w1 := set_currentLocationInfo loc w0 in
        match getWeatherData net x y t1 with
        | (Throw e, t2) => (Ok tt, fallen_back w1, t2)
        | (Ok data, t2) =>
            match process_and_render data loc (showHourlyForecast w) with
            | Ok html => (Ok tt, set_container (Weather html) w1, t2)
            | Throw e => (Ok tt, fallen_back w1, t2)
            end
        end
    end.
Proof.
  unfold initWithCoordinates. unfold c_bind at 1, c_update at 1, c_try.
  unfold c_bind at 1, c_lift at 1.
  assert (Hcatch : forall w0 t0,
            c_bind (showError (lit "Failed to load location-based weather")
                      (lit "Falling back to default location..."))
              (fun _ => c_update (setTimeout InitLondon 2000)) w0 t0
            = (Ok tt, fallen_back w0, t0)).
  { intros w0 t0. unfold c_bind. rewrite showError_run. reflexivity. }
  destruct (reverseGeocode net x y t) as [[loc|e] t1]; [|apply Hcatch].
  unfold c_bind at 1, c_update at 1. unfold c_bind at 1, c_lift at 1.
  destruct (getWeatherData net x y t1) as [[data|e] t2] eqn:Hw; [|apply Hcatch].
  apply getWeatherData_Ok_inv in Hw
    as (_ & _ & _ & _ & Hd & (c & d & h & Hc & Htc & Hdl & Htd & _)).
  rewrite show_weather_run by eauto.
  cbn [showHourlyForecast set_currentLocationInfo set_container].
  destruct (process_and_render data loc (showHourlyForecast w)); [reflexivity|].
  apply Hcatch.
Qed.

(** X22. [initWithCoordinates] sends the coordinates to the reverse
    geocoder before anything has checked them, and makes the record it
    gets, with these coordinates, the current location.  It then shows the
    weather, or else one fixed error box, whatever went wrong, and arms
    the return to London for 2 seconds later and no retry.  When the
    coordinates fail the validation of [getWeatherData], the reverse
    geocoding requests are the only ones made. *)
Theorem initWithCoordinates_outcome (x y : number) (w : widget) (t : trace) :
  exists loc t1 rest w' t',
    reverseGeocode net x y t = (Ok loc, t1)
    /\ t1 = t ++ EvFetch (Reverse x y) :: rest
    /\ initWithCoordinates net process_and_render x y w t = (Ok tt, w', t')
    /\ currentLocationInfo w' = Some loc
    /\ latitude loc = x /\ longitude loc = y
    /\ ((exists html, container w' = Weather html) /\ timers w' = timers w
        \/ container w' = ErrorBox (lit "Failed to load location-based weather")
                             (lit "Falling back to default location...")
           /\ timers w' = timers w ++ [Timer 2000 InitLondon])
    /\ (valid_latitude x && valid_longitude y = false ->
          t' = t1
          /\ container w' = ErrorBox (lit "Failed to load location-based weather")
                              (lit "Falling back to default location...")).
Proof.
  destruct (reverseGeocode_answers net x y t) as (loc & t1 & Hrev & Hlat & Hlon & _).
  pose proof (reverseGeocode_trace net x y t) as Htr. rewrite Hrev in Htr. cbn [snd] in Htr.
  destruct (FetcherProperties.fetchWithRetry_schedule net (Reverse x y) 3 t)
    as (r0 & retries & Hrun & _); [lia|].
  rewrite Hrun in Htr. cbn [snd] in Htr.
  assert (Hhead : exists rest, t1 = t ++ EvFetch (Reverse x y) :: rest)
    by (rewrite Htr; destruct retries; cbn [schedule]; eauto).
  destruct Hhead as (rest & Hhead).
  exists loc, t1, rest.
  rewrite initWithCoordinates_cases, Hrev. cbv zeta.
  destruct (getWeatherData net x y t1) as [[data|e] t2] eqn:Hw.
  - destruct (process_and_render data loc (showHourlyForecast w)) as [html|e].
    + eexists _, _. do 3 (split; [first [exact Hrev | exact Hhead | reflexivity]|]).
      split; [reflexivity|]. split; [exact Hlat|]. split; [exact Hlon|].
      split; [left; split; [eauto | reflexivity]|].
      intros Hv. destruct (ForecastProperties.getWeatherData_refuses net x y t1 Hv)
        as (msg & _ & Hr). rewrite Hr in Hw. discriminate.
    + eexists _, _. do 3 (split; [first [exact Hrev | exact Hhead | reflexivity]|]).
      split; [reflexivity|]. split; [exact Hlat|]. split; [exact Hlon|].
      split; [right; split; reflexivity|].
      intros Hv. destruct (ForecastProperties.getWeatherData_refuses net x y t1 Hv)
        as (msg & _ & Hr). rewrite Hr in Hw. discriminate.
  - eexists _, _. do 3 (split; [first [exact Hrev | exact Hhead | reflexivity]|]).
    split; [reflexivity|]. split; [exact Hlat|]. split; [exact Hlon|].
    split; [right; split; reflexivity|].
    intros Hv. destruct (ForecastProperties.getWeatherData_refuses net x y t1 Hv)
      as (msg & _ & Hr). rewrite Hr in Hw. injection Hw as _ <-.
    split; reflexivity.
Qed.


(** X24. The search button.  A blank input is refused as empty and an input
    that the validator refuses as invalid, each with its error box, without
    any network call and without a retry; any other input is loaded, under
    its trimmed form. *)
Theorem searchBtn_click_input (value : jsstring) (w : widget) (t : trace) :
  let click := searchBtn_click net parseFloat ToString process_and_render in
  (trim value = [] ->
     click value w t
     = (Ok tt,
        set_container (ErrorBox (lit "Empty Input") (lit "Please enter a city name")) w,
        t))
  /\ (forall e, trim value <> [] ->
        validateCityName (VStr (trim value)) = Throw e ->
        click value w t
        = (Ok tt, set_container (ErrorBox (lit "Invalid Input") (message e)) w, t)
        /\ e ∈ [new_Error msg_too_short; new_Error msg_too_long;
                 new_Error msg_invalid_chars])
  /\ (forall validated,
        validateCityName (VStr (trim value)) = Ok validated ->
        validated = trim value
        /\ click value w t = load (VStr (trim value)) w t).
Proof.
  intros click. subst click. unfold searchBtn_click.
  split; [|split].
  - intros ->. cbn [truthy]. now rewrite showError_run.
  - intros e Hne Hval.
    assert (Htr : truthy (VStr (trim value)) = true)
      by (destruct (trim value); [contradiction | reflexivity]).
    rewrite Htr. unfold c_try, c_bind, c_lift, lift. rewrite Hval.
    rewrite showError_run.
    assert (He : e ∈ [new_Error msg_too_short; new_Error msg_too_long;
                      new_Error msg_invalid_chars]).
    { pose proof (ValidatorNormalForm.trim_idempotent value) as Hi.
      unfold validateCityName in Hval.
      destruct (trim value) as [|c s] eqn:Hs; [contradiction|].
      cbv zeta in Hval. rewrite Hi in Hval. cbn [length Nat.eqb] in Hval.
      destruct (_ <? _)%nat; [injection Hval as <-; set_solver|].
      destruct (_ <? _)%nat; [injection Hval as <-; set_solver|].
      destruct (dangerousChars_test _); [injection Hval as <-; set_solver | discriminate]. }
    split; [|exact He].
    f_equal. f_equal.
    repeat (apply elem_of_cons in He as [-> | He]; [reflexivity|]).
    now apply elem_of_nil in He.
  - intros validated Hval.
    assert (Hv : validated = trim value).
    { apply validateCityName_Ok_inv in Hval as (s & [= <-] & -> & _).
      apply ValidatorNormalForm.trim_idempotent. }
    split; [exact Hv|].
    subst validated.
    rewrite (SuggestionProperties.validated_truthy _ _ Hval).
    unfold c_try, c_bind at 1, c_lift at 1, lift. rewrite Hval.
    rewrite (SuggestionProperties.validated_truthy _ _ Hval). cbn [negb].
    destruct (loadWeather_outcome (VStr (trim value)) w t) as (w' & t' & -> & _).
    reflexivity.
Qed.

End Controller.

(** A name of one letter. *)
Lemma loadWeather_invalid_name_witness :
  loadWeather offline parseFloat_number sample_ToString sample_render
    (VStr (lit "P")) fresh_widget []
  = (Ok tt,
     set_container (ErrorBox (lit "Failed to load weather data") msg_too_short)
       fresh_widget,
     []).
Proof.
  exact (loadWeather_invalid_name offline parseFloat_number sample_ToString sample_render
           (VStr (lit "P")) (new_Error msg_too_short) fresh_widget [] eq_refl).
Defined.

(** A load of Paris on a network that answers. *)
Lemma loadWeather_settles_witness :
  let net := online (geocoding_response (Fin (4885 # 100)) (Fin (235 # 100)) "Paris")
               (forecast_response (VObj []) (VObj []) (VObj [])) in
  exists w' t',
    loadWeather net parseFloat_number sample_ToString sample_render
      (VStr (lit "Paris")) fresh_widget [] = (Ok tt, w', t')
    /\ container w' = Weather (lit "<div>weather</div>")
    /\ currentLocationInfo w' = Some paris.
Proof.
  intros net.
  destruct (loadWeather_settles net parseFloat_number sample_ToString sample_render
              (VStr (lit "Paris")) fresh_widget [])
    as (w' & t' & Hrun & _ & _ & Hloc & _).
  exists w', t'. split; [exact Hrun|]. split.
  - assert (Hrun' : loadWeather net parseFloat_number sample_ToString sample_render
                      (VStr (lit "Paris")) fresh_widget []
                    = (Ok tt,
                       set_container (Weather (lit "<div>weather</div>"))
                         (set_currentLocationInfo paris fresh_widget),
                       [EvFetch (Geocoding (lit "Paris") 1);
                        EvFetch (Forecast (Fin (4885 # 100)) (Fin (235 # 100)))]))
      by reflexivity.
    rewrite Hrun' in Hrun. injection Hrun as <- _. reflexivity.
  - exact Hloc.
Defined.

(** Paris is resolved, then the forecast cannot be reached. *)
Lemma loadWeather_forecast_down_witness :
  let net := geocoding_only (geocoding_response (Fin (4885 # 100)) (Fin (235 # 100)) "Paris") in
  loadWeather net parseFloat_number sample_ToString sample_render
    (VStr (lit "Paris")) fresh_widget []
  = (Ok tt,
     {| currentLocationInfo := Some paris;
        showHourlyForecast := false;
        container :=
          ErrorBox (lit "Network connection problem")
            (lit "Unable to fetch weather data: " ++ msg_connection);
        timers := [Timer 5000 ReloadCurrentLocation] |},
     [EvFetch (Geocoding (lit "Paris") 1)]
     ++ schedule (Forecast (Fin (4885 # 100)) (Fin (235 # 100))) 1 2).
Proof.
  intros net.
  exact (loadWeather_forecast_down net parseFloat_number sample_ToString sample_render
           (VStr (lit "Paris")) fresh_widget [] [EvFetch (Geocoding (lit "Paris") 1)]
           paris (new_TypeError (lit "Failed to fetch"))
           eq_refl eq_refl eq_refl eq_refl (fun _ _ => eq_refl) eq_refl
           (or_introl eq_refl)).
Defined.

(** The geocoder cannot be reached, or does not answer in time. *)
Lemma loadWeather_geocoding_down_witness :
  loadWeather offline parseFloat_number sample_ToString sample_render
    (VStr (lit "Paris")) fresh_widget []
  = (Ok tt,
     set_container
       (ErrorBox (lit "Failed to load weather data")
          (lit "Unable to find location: " ++ msg_connection)) fresh_widget,
     schedule (Geocoding (lit "Paris") 1) 1 2)
  /\ loadWeather stalled parseFloat_number sample_ToString sample_render
       (VStr (lit "Paris")) fresh_widget []
     = (Ok tt,
        setTimeout ReloadCurrentLocation 5000
          (set_container
             (ErrorBox (lit "Request timed out - please try again")
                (lit "Unable to find location: " ++ msg_timeout)) fresh_widget),
        schedule (Geocoding (lit "Paris") 1) 1 2).
Proof.
  split.
  - exact (proj1 (loadWeather_geocoding_down offline parseFloat_number sample_ToString
                    sample_render (VStr (lit "Paris")) (lit "Paris") fresh_widget []
                    (new_TypeError (lit "Failed to fetch"))
                    eq_refl eq_refl (fun _ _ => eq_refl) eq_refl) eq_refl).
  - exact (proj2 (loadWeather_geocoding_down stalled parseFloat_number sample_ToString
                    sample_render (VStr (lit "Paris")) (lit "Paris") fresh_widget []
                    (Error_ (lit "AbortError") (lit "The operation was aborted"))
                    eq_refl eq_refl (fun _ _ => eq_refl) eq_refl) eq_refl).
Defined.

(** A latitude of 91 degrees on a network that is down: the reverse
    geocoder is tried three times, and nothing else. *)
Lemma initWithCoordinates_outcome_witness :
  exists w',
    initWithCoordinates offline sample_render (of_Z 91) (of_Z 10) fresh_widget []
    = (Ok tt, w', schedule (Reverse (of_Z 91) (of_Z 10)) 1 2)
    /\ container w' = ErrorBox (lit "Failed to load location-based weather")
                        (lit "Falling back to default location...").
Proof.
  destruct (initWithCoordinates_outcome offline sample_render (of_Z 91) (of_Z 10)
              fresh_widget [])
    as (loc & t1 & rest & w' & t' & Hrev & _ & Hrun & _ & _ & _ & _ & Hbad).
  destruct (Hbad eq_refl) as [-> Hbox].
  assert (Ht1 : t1 = schedule (Reverse (of_Z 91) (of_Z 10)) 1 2).
  { assert (Hrev' : snd (reverseGeocode offline (of_Z 91) (of_Z 10) [])
                    = schedule (Reverse (of_Z 91) (of_Z 10)) 1 2) by reflexivity.
    rewrite Hrev in Hrev'. exact Hrev'. }
  subst t1. exists w'. split; [exact Hrun | exact Hbox].
Defined.


(** A blank input and an input of one letter. *)
Lemma searchBtn_click_input_witness :
  searchBtn_click offline parseFloat_number sample_ToString sample_render
    (lit "   ") fresh_widget []
  = (Ok tt,
     set_container (ErrorBox (lit "Empty Input") (lit "Please enter a city name"))
       fresh_widget,
     [])
  /\ searchBtn_click offline parseFloat_number sample_ToString sample_render
       (lit " a ") fresh_widget []
     = (Ok tt,
        set_container (ErrorBox (lit "Invalid Input") msg_too_short) fresh_widget,
        []).
Proof.
  split.
  - exact (proj1 (searchBtn_click_input offline parseFloat_number sample_ToString
                    sample_render (lit "   ") fresh_widget []) eq_refl).
  - refine (proj1 (proj1 (proj2 (searchBtn_click_input offline parseFloat_number
                                   sample_ToString sample_render (lit " a ")
                                   fresh_widget []))
                     (new_Error msg_too_short) _ eq_refl)).
    discriminate.
Defined.

End ControllerProperties.

(** ** The two gates of the service *)

Module ServiceGates.
Import NetworkUtils WeatherService MonadLemmas ForecastProperties.

(** X25. The gate of [getWeatherData].  The forecast is requested, for
    exactly the pair given, when both values are finite, not zero and
    within their bounds.  Any other pair is refused before the network is
    touched: with the generic message when a value is [NaN] or zero,
    otherwise with the message of the latitude bound when the latitude is
    outside of it, otherwise with that of the longitude bound. *)
Theorem getWeatherData_gate (net : nat -> request -> outcome) (x y : number) (t : trace) :
  if valid_latitude x && valid_longitude y
     && negb (not_number x) && negb (not_number y)
  then exists r evs, getWeatherData net x y t = (r, t ++ EvFetch (Forecast x y) :: evs)
  else getWeatherData net x y t
       = (Throw (new_Error (if not_number x || not_number y then msg_invalid_coordinates
                            else if valid_latitude x then msg_invalid_longitude
                            else msg_invalid_latitude)),
          t).
Proof.
  destruct (not_number x) eqn:Hzx.
  { rewrite !andb_false_r. cbn [andb orb]. unfold getWeatherData. now rewrite Hzx. }
  destruct (not_number y) eqn:Hzy.
  { rewrite !andb_false_r. cbn [orb]. unfold getWeatherData.
    rewrite Hzx, Hzy. reflexivity. }
  cbn [negb orb]. rewrite !andb_true_r.
  destruct (valid_latitude x && valid_longitude y) eqn:Hv.
  - now apply getWeatherData_accepts.
  - now apply ResolutionProperties.getWeatherData_refuses_range.
Qed.

(** The outcomes of geocoding on a response that places Paris, without a
    country or a region: the record carries the defaults. *)
Lemma getCoordinates_response_witness :
  let resp := geocoding_response (Fin (4885 # 100)) (Fin (235 # 100)) "Paris" in
  getCoordinates (always resp) parseFloat_number (VStr (lit " Paris ")) []
  = (Ok paris, [EvFetch (Geocoding (lit "Paris") 1)]).
Proof.
  intros resp.
  refine (proj2 (ResolverProperties.getCoordinates_response (always resp)
                   parseFloat_number (VStr (lit " Paris ")) (lit "Paris") (lit "Paris")
                   [] [EvFetch (Geocoding (lit "Paris") 1)] resp _
                   eq_refl eq_refl eq_refl eq_refl)
            _ [] eq_refl).
Defined.

End ServiceGates.

(** ** The first load *)

Module InitProperties.
Import NetworkUtils WeatherService WeatherWidget ControllerProperties.

(** X27. [init] does what [loadWeather] does and nothing more: since
    [loadWeather] handles every error itself, the handler of [init] never
    runs, and the title ["Failed to load initial weather data"] is never
    shown. *)
Theorem init_is_loadWeather
    (net : nat -> request -> outcome) (parseFloat : jsval -> number)
    (ToString : jsval -> jsstring)
    (process_and_render : jsval -> location_record -> bool -> result jsstring)
    (defaultCity : jsval) (w : widget) (t : trace) :
  init net parseFloat ToString process_and_render defaultCity w t
  = loadWeather net parseFloat ToString process_and_render defaultCity w t
  /\ forall message,
       container (snd (fst (init net parseFloat ToString process_and_render
                              defaultCity w t)))
       <> ErrorBox (lit "Failed to load initial weather data") message.
Proof.
  assert (Heq : init net parseFloat ToString process_and_render defaultCity w t
                = loadWeather net parseFloat ToString process_and_render defaultCity w t).
  { unfold init, c_bind at 1, c_update at 1, c_try.
    rewrite !loadWeather_cases. cbv zeta.
    change (set_container Loading (set_container Loading w)) with (set_container Loading w).
    change (showHourlyForecast (set_container Loading w)) with (showHourlyForecast w).
    destruct (getCoordinates net parseFloat defaultCity t) as [[loc|e] t1].
    - destruct (getWeatherData net (latitude loc) (longitude loc) t1) as [[data|e] t2];
        [destruct (process_and_render data loc (showHourlyForecast w))|]; reflexivity.
    - destruct (validateCityName defaultCity); reflexivity. }
  split; [exact Heq|].
  intros msg. rewrite Heq, loadWeather_cases. cbv zeta.
  assert (Htitle : forall e w0,
            container (failed ToString defaultCity e w0)
            <> ErrorBox (lit "Failed to load initial weather data") msg).
  { intros e w0. unfold failed.
    destruct (ControllerProperties.after_showError_fields
                (userMessage ToString (message e) defaultCity) (message e) w0) as (-> & _).
    unfold userMessage.
    repeat match goal with |- context [if ?b then _ else _] => destruct b end;
      intros [= H _]; discriminate H. }
  destruct (getCoordinates net parseFloat defaultCity t) as [[loc|e] t1].
  - destruct (getWeatherData net (latitude loc) (longitude loc) t1) as [[data|e] t2].
    + destruct (process_and_render data loc (showHourlyForecast w)); [discriminate|].
      apply Htitle.
    + apply Htitle.
  - destruct (validateCityName defaultCity); apply Htitle.
Qed.

End InitProperties.
